(** * The real-estate API client facade (frontend/src/services/realEstateService.js)

    A shallow embedding of the client's [RealEstateService] class and of the
    [handleApiError] helper (src/utils/errorHandler.js), followed by the
    properties of the facade that the design document states.

    JavaScript values are an inductive type, objects are finite maps from
    property names to values, and the asynchronous methods live in a small
    state-and-exception monad whose state records every request handed to
    the transport and every back-off delay that was waited. *)

From stdpp Require Import gmap strings list fin_maps.
From Stdlib Require Import ZArith Lia DecimalString.

#[local] Set Warnings "-register-all".
#[local] Open Scope Z_scope.
#[local] Open Scope string_scope.

(** ** JavaScript values *)

(** Numbers are the integer-valued ones together with [NaN]; that is all the
    facade ever compares ([offer <= 0], truthiness of an identifier). *)
Inductive value : Type :=
| VUndefined
| VNull
| VBool (b : bool)
| VNum (z : Z)
| VNaN
| VStr (s : string)
| VArr (l : list value)
| VObj (m : gmap string value).

(** ToBoolean. *)
Definition truthy (v : value) : bool :=
  match v with
  | VUndefined | VNull | VNaN => false
  | VBool b => b
  | VNum z => negb (Z.eqb z 0)
  | VStr s => negb (String.eqb s "")
  | VArr _ | VObj _ => true
  end.

(** [a || b]. *)
Definition js_or (a b : value) : value := if truthy a then a else b.

Definition nullish (v : value) : bool :=
  match v with VUndefined | VNull => true | _ => false end.

(** Reading property [k] of a value that is neither [null] nor [undefined].
    The keys this client reads (status, message, data, timestamp, amenities,
    property_info, amenity_score) are own properties of objects only. *)
Definition prop (v : value) (k : string) : value :=
  match v with
  | VObj m => default VUndefined (m !! k)
  | _ => VUndefined
  end.

(** [v?.k] *)
Definition opt_prop (v : value) (k : string) : value :=
  if nullish v then VUndefined else prop v k.

(** ** Responses and raised failures *)

(** What axios resolves with: only [response.data] is read by the facade;
    the response the error interceptor fabricates has no status at all. *)
Record http_response : Type := mkResponse {
  resp_status : option Z;
  resp_data : value
}.

(** An [Error] object as this client inspects it: [error.message],
    [error.code] (axios: ECONNABORTED for an expired deadline, ERR_NETWORK for
    a connection failure) and [error.response] (present when the server
    answered with an error status). *)
Record js_error : Type := mkError {
  err_message : string;
  err_code : option string;
  err_response : option http_response
}.

(** [new Error(msg)] *)
Definition Error (msg : string) : js_error := mkError msg None None.

(** The TypeError raised by [v.k] when [v] is [null] or [undefined]. *)
Definition TypeError_read (v : value) (k : string) : js_error :=
  Error ("Cannot read properties of "
           +:+ (match v with VNull => "null" | _ => "undefined" end)
           +:+ " (reading '" +:+ k +:+ "')").

(** ** Completions: a value, a raised error, or a loop that ran out of fuel *)

Inductive completion (A : Type) : Type :=
| Normal (a : A)
| Throw (e : js_error)
| Diverged.
Arguments Normal {A} a.
Arguments Throw {A} e.
Arguments Diverged {A}.

Definition cbind {A B} (c : completion A) (k : A -> completion B) : completion B :=
  match c with
  | Normal a => k a
  | Throw e => Throw e
  | Diverged => Diverged
  end.

(** [v.k], which raises on [null] and [undefined]. *)
Definition get_prop (v : value) (k : string) : completion value :=
  if nullish v then Throw (TypeError_read v k) else Normal (prop v k).

(** ** The canonical envelope *)

Record Envelope : Type := mkEnvelope {
  status : value;
  message : value;
  data : value;
  timestamp : value
}.

(** The object literal [{status, message, data, timestamp}]. *)
Definition envelope_object (e : Envelope) : value :=
  VObj (<["status" := status e]> (<["message" := message e]>
         (<["data" := data e]> (<["timestamp" := timestamp e]> ∅)))).

(** ** The host environment *)

(** Built-ins of the JavaScript host that the client calls and that are not
    part of the repository. [now] is what [new Date().toISOString()] yields. *)
Class JsRuntime : Type := {
  now : string;
  parseFloat : value -> value;
  StringToNumber : string -> value;
  ObjectToNumber : value -> value
}.

(** ** Requests and the transport *)

(** The five endpoints, with the identifier interpolated into the path and
    the request body. *)
Inductive request : Type :=
| GetHealth
| PostChat (payload : value)
| GetAmenities (propertyId : value)
| PostNegotiate (propertyId : value) (payload : value)
| PostCloseDeal (propertyId : value) (dealDetails : value).

(** How the transport settles a request: with a response, or with a raised
    failure (HTTP error status, expired deadline, connection failure). *)
Inductive settled : Type :=
| Fulfilled (r : http_response)
| Rejected (e : js_error).

(** Everything the facade does to the outside: requests handed to the
    transport and delays waited, both in chronological order. *)
Record world : Type := mkWorld {
  sent : list request;
  waited : list Z
}.

Definition idle : world := mkWorld [] [].

(** The world after one more request has been handed to the transport. *)
Definition issue (req : request) (w : world) : world :=
  mkWorld (sent w ++ [req]) (waited w).

Definition M (A : Type) : Type := world -> completion A * world.

Definition ret {A} (a : A) : M A := fun w => (Normal a, w).

Definition bind {A B} (m : M A) (k : A -> M B) : M B :=
  fun w =>
    match m w with
    | (Normal a, w') => k a w'
    | (Throw e, w') => (Throw e, w')
    | (Diverged, w') => (Diverged, w')
    end.

Definition throw {A} (e : js_error) : M A := fun w => (Throw e, w).

Definition diverge {A} : M A := fun w => (Diverged, w).

Definition lift {A} (c : completion A) : M A := fun w => (c, w).

(** [try { m } catch (error) { h error }] *)
Definition try_catch {A} (m : M A) (h : js_error -> M A) : M A :=
  fun w =>
    match m w with
    | (Throw e, w') => h e w'
    | r => r
    end.

(** [await new Promise(resolve => setTimeout(resolve, delay))] *)
Definition sleep (delay : Z) : M unit :=
  fun w => (Normal tt, mkWorld (sent w) (waited w ++ [delay])).

Notation "'do' x <- m ; k" := (bind m (fun x => k))
  (at level 10, x name, m at level 100, k at level 200).
Notation "'step' m ; k" := (bind m (fun _ => k))
  (at level 10, m at level 100, k at level 200).
Notation "'pure' x <- c ; k" := (cbind c (fun x => k))
  (at level 10, x name, c at level 100, k at level 200).

Section Service.

Context `{JsRuntime}.

(** The backend and the network: how the [n]-th request ever issued (counting
    from 0) is settled. *)
Variable transport : nat -> request -> settled.

(** *** Utility methods *)

(** [standardizeResponse(data)] *)
Definition standardizeResponse (body : value) : completion Envelope :=
  pure s <- get_prop body "status";
  pure m <- get_prop body "message";
  pure d <- get_prop body "data";
  pure t <- get_prop body "timestamp";
  Normal {| status := js_or s (VStr "success");
            message := js_or m (VStr "Success");
            data := js_or d body;
            timestamp := js_or t (VStr now) |}.

(** [error.response?.data?.message] *)
Definition response_message (error : js_error) : value :=
  match err_response error with
  | None => VUndefined
  | Some r => opt_prop (resp_data r) "message"
  end.

(** [handleError(error, defaultMessage)] *)
Definition handleError (error : js_error) (defaultMessage : string) : Envelope :=
  let errorMessage :=
    if truthy (response_message error) then response_message error
    else if truthy (VStr (err_message error)) then VStr (err_message error)
    else VStr defaultMessage in
  {| status := VStr "error";
     message := errorMessage;
     data := VObj ∅;
     timestamp := VStr now |}.

(** *** The axios instance with the interceptors the constructor installs *)

(** The response interceptor: a response passes through, a failure is turned
    into a resolved response whose body has no [data] field. *)
Definition response_interceptor (s : settled) : settled :=
  match s with
  | Fulfilled response => Fulfilled response
  | Rejected error =>
      Fulfilled (mkResponse None
        (VObj (<["status" := VStr "error"]>
               (<["message" := js_or (js_or (response_message error)
                                        (VStr (err_message error)))
                                 (VStr "Network error occurred")]>
               (<["timestamp" := VStr now]> ∅)))))
  end.

(** [await axios.get(url)] / [await axios.post(url, payload)]: the request
    goes to the transport and the outcome passes the response interceptor. *)
Definition axios (req : request) : M http_response :=
  fun w =>
    match response_interceptor (transport (length (sent w)) req) with
    | Fulfilled response => (Normal response, issue req w)
    | Rejected error => (Throw error, issue req w)
    end.

(** *** Validation helpers *)

(** ToNumber, with the conversions of strings and of objects left to the
    host. *)
Definition ToNumber (v : value) : value :=
  match v with
  | VUndefined => VNaN
  | VNull => VNum 0
  | VBool b => VNum (if b then 1 else 0)
  | VNum z => VNum z
  | VNaN => VNaN
  | VStr s => StringToNumber s
  | VArr _ | VObj _ => ObjectToNumber v
  end.

(** [v <= 0]: a comparison with [NaN] is false. *)
Definition le_zero (v : value) : bool :=
  match ToNumber v with
  | VNum z => Z.leb z 0
  | _ => false
  end.

(** *** The five operations *)

(** [checkHealth()]: the raw body is returned, a raised failure is raised
    again. *)
Definition checkHealth : M value :=
  try_catch
    (do response <- axios GetHealth;
     ret (resp_data response))
    (fun error => throw error).

Definition maxRetries : Z := 3.

(** [axios.post(`${API_BASE_URL}/chat`, { query }, ...)] *)
Definition chat_request (query : value) : request :=
  PostChat (VObj (<["query" := query]> ∅)).

(** The [try] block of [chatQuery]'s loop. *)
Definition chat_attempt (query : value) : M Envelope :=
  do response <- axios (chat_request query);
  lift (standardizeResponse (resp_data response)).

(** [while (retryCount < maxRetries) { try { ... return ... } catch { ... } }]
    followed by [return this.handleError(lastError, ...)]; [lastError] starts
    out as [null]. *)
Fixpoint chatQuery_loop (fuel : nat) (query : value) (retryCount : Z)
    (lastError : option js_error) : M Envelope :=
  if Z.ltb retryCount maxRetries then
    match fuel with
    | O => diverge
    | S fuel' =>
        try_catch (chat_attempt query)
          (fun error =>
             let retryCount' := (retryCount + 1)%Z in
             step (if Z.ltb retryCount' maxRetries
                   then sleep (Z.min (1000 * 2 ^ retryCount') 5000)
                   else ret tt);
             chatQuery_loop fuel' query retryCount' (Some error))
    end
  else
    match lastError with
    | Some error => ret (handleError error "Failed after multiple attempts")
    | None => throw (TypeError_read VNull "response")
    end.

(** [chatQuery(query)] *)
Definition chatQuery (query : value) : M Envelope :=
  chatQuery_loop (Z.to_nat maxRetries) query 0 None.

(** The object [getPropertyAmenities] builds from the body before it hands
    it to [standardizeResponse]. *)
Definition amenities_object (body : value) : completion value :=
  pure d <- get_prop body "data";
  pure nested <- (if truthy d then get_prop d "amenities" else Normal d);
  pure amenitiesData <- (if truthy nested then get_prop d "amenities"
                         else get_prop body "amenities");
  pure s <- get_prop body "status";
  pure m <- get_prop body "message";
  pure t <- get_prop body "timestamp";
  Normal (VObj
    (<["status" := js_or s (VStr "success")]>
    (<["message" := js_or m (VStr "Amenities retrieved successfully")]>
    (<["data" := VObj
         (<["amenities" := js_or amenitiesData (VArr [])]>
         (<["property_info" := js_or (opt_prop d "property_info") (VObj ∅)]>
         (<["amenity_score" := js_or (opt_prop d "amenity_score") (VObj ∅)]> ∅)))]>
    (<["timestamp" := js_or t (VStr now)]> ∅))))).

(** [getPropertyAmenities(propertyId)] *)
Definition getPropertyAmenities (propertyId : value) : M Envelope :=
  try_catch
    (do response <- axios (GetAmenities propertyId);
     lift (pure reshaped <- amenities_object (resp_data response);
           standardizeResponse reshaped))
    (fun error => ret (handleError error "Failed to retrieve amenities")).

(** [axios.post(url, { offer: parseFloat(offer) })] *)
Definition negotiate_request (propertyId offer : value) : request :=
  PostNegotiate propertyId (VObj (<["offer" := parseFloat offer]> ∅)).

(** [!propertyId || !offer || offer <= 0] *)
Definition invalid_negotiation (propertyId offer : value) : bool :=
  negb (truthy propertyId) || negb (truthy offer) || le_zero offer.

(** [negotiatePrice(propertyId, offer)] *)
Definition negotiatePrice (propertyId offer : value) : M Envelope :=
  try_catch
    (step (if invalid_negotiation propertyId offer
           then throw (Error "Invalid property ID or offer amount")
           else ret tt);
     do response <- axios (negotiate_request propertyId offer);
     lift (standardizeResponse (resp_data response)))
    (fun error => ret (handleError error "Failed to process negotiation")).

(** The default parameter [dealDetails = {}]. *)
Definition default_details (dealDetails : value) : value :=
  match dealDetails with VUndefined => VObj ∅ | _ => dealDetails end.

(** [finalizeDeal(propertyId, dealDetails = {})] *)
Definition finalizeDeal (propertyId dealDetails : value) : M Envelope :=
  let dealDetails := default_details dealDetails in
  try_catch
    (step (if negb (truthy propertyId)
           then throw (Error "Invalid property ID")
           else ret tt);
     do response <- axios (PostCloseDeal propertyId dealDetails);
     lift (standardizeResponse (resp_data response)))
    (fun error => ret (handleError error "Failed to finalize deal")).

(** *** src/utils/errorHandler.js *)

(** [s.includes(search)] *)
Fixpoint includes (s search : string) : bool :=
  String.prefix search s ||
  match s with
  | EmptyString => false
  | String _ rest => includes rest search
  end.

Definition createErrorResponse (msg : string) : Envelope :=
  {| status := VStr "error";
     message := VStr msg;
     data := VObj ∅;
     timestamp := VStr now |}.

(** [handleApiError(error)] *)
Definition handleApiError (error : js_error) : Envelope :=
  if includes (err_message error) "timeout" then
    createErrorResponse
      "The request timed out. Please check your connection and try again."
  else if includes (err_message error) "Failed to fetch"
          || includes (err_message error) "connect" then
    createErrorResponse
      "Unable to connect to the server. Please check if the server is running."
  else if includes (err_message error) "500" then
    createErrorResponse "Server error occurred. Please try again later."
  else if includes (err_message error) "404" then
    createErrorResponse "The requested resource was not found."
  else
    createErrorResponse "An unexpected error occurred. Please try again later.".

End Service.

(** ** A concrete host, for running the model *)

(** The conversions of this host follow ECMAScript on every string that
    writes an integer in plain decimal notation, with an optional sign and
    surrounding white space, and on arrays and plain objects. A fraction has
    no image among the numbers of the model: StringToNumber takes it, like
    the other notations (exponents, hexadecimal, Infinity), to [NaN], and
    [parseFloat] stops reading at the point. *)

Definition is_white (c : Ascii.ascii) : bool :=
  let n := Ascii.nat_of_ascii c in
  (Nat.leb 9 n && Nat.leb n 13) || Nat.eqb n 32.

Definition is_digit (c : Ascii.ascii) : bool :=
  let n := Ascii.nat_of_ascii c in
  Nat.leb 48 n && Nat.leb n 57.

Fixpoint drop_white (s : string) : string :=
  match s with
  | EmptyString => EmptyString
  | String c rest => if is_white c then drop_white rest else s
  end.

Definition reverse (s : string) : string :=
  String.string_of_list_ascii (rev (String.list_ascii_of_string s)).

(** [s.trim()] *)
Definition trim (s : string) : string :=
  reverse (drop_white (reverse (drop_white s))).

Fixpoint leading_digits (s : string) : string :=
  match s with
  | EmptyString => EmptyString
  | String c rest =>
      if is_digit c then String c (leading_digits rest) else EmptyString
  end.

(** The value of a non-empty string of decimal digits. *)
Definition digits_value (s : string) : option Z :=
  if String.eqb s "" then None
  else option_map Z.of_uint (NilEmpty.uint_of_string s).

(** An optional sign, then what [parse] reads. *)
Definition signed (parse : string -> option Z) (s : string) : option Z :=
  match s with
  | String c rest =>
      if Ascii.eqb c (Ascii.ascii_of_nat 43) then parse rest
      else if Ascii.eqb c (Ascii.ascii_of_nat 45)
      then option_map Z.opp (parse rest)
      else parse s
  | EmptyString => parse s
  end.

Definition number_of (o : option Z) : value :=
  match o with
  | Some z => VNum z
  | None => VNaN
  end.

(** StringToNumber: the empty string and white space are 0. *)
Definition string_to_number (s : string) : value :=
  if String.eqb (trim s) "" then VNum 0
  else number_of (signed digits_value (trim s)).

(** [parseFloat] of a string: the longest numeric prefix, after leading
    white space. *)
Definition parse_prefix (s : string) : value :=
  number_of (signed (fun rest => digits_value (leading_digits rest))
               (drop_white s)).

(** ToNumber of an array or a plain object, through its string: [[]] is "",
    a one-element array is its element, a longer one has a comma in it, and
    a plain object is "[object Object]". *)
Fixpoint object_to_number (v : value) : value :=
  match v with
  | VArr [] => VNum 0
  | VArr [x] =>
      match x with
      | VUndefined | VNull => VNum 0
      | VNum z => VNum z
      | VStr s => string_to_number s
      | VArr _ => object_to_number x
      | VBool _ | VNaN | VObj _ => VNaN
      end
  | _ => VNaN
  end.

(** [parseFloat(v)], through the string of [v]: of an array only the first
    element can contribute, the comma ends the number. *)
Fixpoint parse_float (v : value) : value :=
  match v with
  | VNum z => VNum z
  | VStr s => parse_prefix s
  | VArr (x :: _) =>
      match x with
      | VNum z => VNum z
      | VStr s => parse_prefix s
      | VArr _ => parse_float x
      | VUndefined | VNull | VBool _ | VNaN | VObj _ => VNaN
      end
  | _ => VNaN
  end.

Definition sample_runtime : JsRuntime :=
  {| now := "2024-05-01T12:00:00.000Z";
     parseFloat := parse_float;
     StringToNumber := string_to_number;
     ObjectToNumber := object_to_number |}.

(** ** Vocabulary of the design document *)

(** An already-canonical envelope: status success or error, a message
    string, a data mapping, and an ISO-8601 instant as timestamp. *)
Definition canonical (e : Envelope) : bool :=
  match status e, message e, data e, timestamp e with
  | VStr s, VStr _, VObj _, VStr t =>
      (String.eqb s "success" || String.eqb s "error") && negb (String.eqb t "")
  | _, _, _, _ => false
  end.

(** The same, for a raw value such as [checkHealth] returns. *)
Definition canonical_object (v : value) : bool :=
  canonical {| status := prop v "status"; message := prop v "message";
               data := prop v "data"; timestamp := prop v "timestamp" |}.

(** Modelled from the spec: the kinds of the Error Classifier (sections 3
    and 4.4 of the design document), read off the discrete signals of a
    failure. The client has no such function; [ECONNABORTED] and
    [ERR_NETWORK] are the codes axios gives an expired deadline and a
    connection failure. *)
Inductive kind : Type :=
| Timeout
| NetworkUnreachable
| ServerError
| NotFound
| ClientError
| Unknown.

Definition has_code (e : js_error) (code : string) : bool :=
  match err_code e with
  | Some c => String.eqb c code
  | None => false
  end.

Definition http_status (e : js_error) : option Z :=
  match err_response e with
  | Some r => resp_status r
  | None => None
  end.

Definition classify (e : js_error) : kind :=
  if has_code e "ECONNABORTED" then Timeout
  else if has_code e "ERR_NETWORK" then NetworkUnreachable
  else match http_status e with
       | Some s =>
           if Z.leb 500 s && Z.leb s 599 then ServerError
           else if Z.eqb s 404 then NotFound
           else if Z.leb 400 s && Z.leb s 499 then ClientError
           else Unknown
       | None => Unknown
       end.

Definition isTransient (k : kind) : bool :=
  match k with
  | Timeout | NetworkUnreachable | ServerError => true
  | NotFound | ClientError | Unknown => false
  end.

(** [search] occurs somewhere in [s]. *)
Definition occurs_in (search s : string) : Prop :=
  exists pre post, s = pre +:+ (search +:+ post).

(** An argument that was supplied: neither [null] nor [undefined]. *)
Definition is_present (v : value) : bool := negb (nullish v).

Definition positive_number (v : value) : bool :=
  match v with
  | VNum z => Z.ltb 0 z
  | _ => false
  end.

(** Total back-off time, in milliseconds. *)
Definition total_wait (w : world) : Z := foldr Z.add 0%Z (waited w).

Section Observations.

Context `{JsRuntime}.
Variable transport : nat -> request -> settled.

(** The body the facade reads for the [n]-th request: what the transport
    answered, or what the interceptor made of its failure. *)
Definition delivered (n : nat) (req : request) : value :=
  match response_interceptor (transport n req) with
  | Fulfilled response => resp_data response
  | Rejected _ => VUndefined
  end.

(** What [standardizeResponse] builds from a body it can read. *)
Definition standardized (body : value) : Envelope :=
  {| status := js_or (prop body "status") (VStr "success");
     message := js_or (prop body "message") (VStr "Success");
     data := js_or (prop body "data") body;
     timestamp := js_or (prop body "timestamp") (VStr now) |}.

(** The envelope a [try { ... standardizeResponse(response.data) } catch]
    method ends with, given the body it received. *)
Definition settle (defaultMessage : string) (body : value) : Envelope :=
  if nullish body
  then handleError (TypeError_read body "status") defaultMessage
  else standardized body.

(** No body the facade reads carries the status "error". *)
Definition no_error_body : Prop :=
  forall n req, prop (delivered n req) "status" <> VStr "error".

(** Each of the [maxRetries] attempts that [chatQuery query] can make from
    the world [w] raises inside its [try] block. *)
Definition every_attempt_raises (query : value) (w : world) : Prop :=
  forall w',
    (length (sent w) <= length (sent w')
     < length (sent w) + Z.to_nat maxRetries)%nat ->
    exists e, fst (chat_attempt transport query w') = Throw e.

Definition returns_envelope (m : M Envelope) (w : world) : Prop :=
  exists env w', m w = (Normal env, w').

Definition returns_error (m : M Envelope) (w : world) : Prop :=
  exists env w', m w = (Normal env, w') /\ status env = VStr "error".

End Observations.

(** ** Sample backends *)

(** Every request is answered with HTTP 503. *)
Definition persistent_503 : nat -> request -> settled :=
  fun _ _ =>
    Rejected (mkError "Request failed with status code 503"
                (Some "ERR_BAD_RESPONSE")
                (Some (mkResponse (Some 503)
                         (VObj (<["message" := VStr "Service Unavailable"]> ∅))))).

(** Every request is answered with HTTP 404 and an HTML page. *)
Definition persistent_404 : nat -> request -> settled :=
  fun _ _ =>
    Rejected (mkError "Request failed with status code 404"
                (Some "ERR_BAD_REQUEST")
                (Some (mkResponse (Some 404) (VStr "<h1>Not Found</h1>")))).

(** Every request is answered with HTTP 200 and the JSON document [null]. *)
Definition null_bodies : nat -> request -> settled :=
  fun _ _ => Fulfilled (mkResponse (Some 200) VNull).

(** Every request is answered with a given body and HTTP 200. *)
Definition answering (body : value) : nat -> request -> settled :=
  fun _ _ => Fulfilled (mkResponse (Some 200) body).

(** The flattened amenities body [{amenities: ["Gym", "Pool"]}]. *)
Definition flattened_amenities : value :=
  VObj (<["amenities" := VArr [VStr "Gym"; VStr "Pool"]]> ∅).

(** An error body with data of its own, sent with HTTP 200. *)
Definition no_match : value :=
  VObj (<["status" := VStr "error"]>
       (<["message" := VStr "No exact match"]>
       (<["data" := VObj (<["alternative_count" := VNum 2]> ∅)]> ∅))).

(** The query of the happy-path scenario. *)
Definition question : value :=
  VStr "Find 2BHK apartments in Dallas under $500K".

(** The success body of the happy-path scenario. *)
Definition found_matches : value :=
  VObj (<["status" := VStr "success"]>
       (<["message" := VStr "Found 3 matches"]>
       (<["data" := VObj (<["properties" := VArr [VNum 1; VNum 2; VNum 3]]> ∅)]> ∅))).

(** * The other copies of the client, and its callers *)

(** ** The deployed copy of the service (its [getErrorMessage], interceptor
    and [chatQuery]); the remaining methods are those of the first copy. *)

Module Deployed.

Section Service.

Context `{JsRuntime}.
Variable transport : nat -> request -> settled.

(** [getErrorMessage(error)] *)
Definition getErrorMessage (error : js_error) : value :=
  if has_code error "ERR_NETWORK" then
    VStr "Unable to connect to the server. Please check your internet connection."
  else if has_code error "ECONNABORTED" then
    VStr "Request timeout. Please try again."
  else if truthy (response_message error) then
    response_message error
  else
    js_or (VStr (err_message error)) (VStr "An unexpected error occurred").

(** The response interceptor of [this.axios]. *)
Definition response_interceptor (s : settled) : settled :=
  match s with
  | Fulfilled response => Fulfilled response
  | Rejected error =>
      Fulfilled (mkResponse None
        (VObj (<["status" := VStr "error"]>
               (<["message" := getErrorMessage error]>
               (<["timestamp" := VStr now]> ∅)))))
  end.

(** [await this.axios.get(path)] / [await this.axios.post(path, payload)] *)
Definition axios (req : request) : M http_response :=
  fun w =>
    match response_interceptor (transport (length (sent w)) req) with
    | Fulfilled response => (Normal response, issue req w)
    | Rejected error => (Throw error, issue req w)
    end.

(** [this.axios.post('/chat', { message: query }, ...)] *)
Definition chat_request (query : value) : request :=
  PostChat (VObj (<["message" := query]> ∅)).

Definition chat_attempt (query : value) : M Envelope :=
  do response <- axios (chat_request query);
  lift (standardizeResponse (resp_data response)).

Fixpoint chatQuery_loop (fuel : nat) (query : value) (retryCount : Z)
    (lastError : option js_error) : M Envelope :=
  if Z.ltb retryCount maxRetries then
    match fuel with
    | O => diverge
    | S fuel' =>
        try_catch (chat_attempt query)
          (fun error =>
             let retryCount' := (retryCount + 1)%Z in
             step (if Z.ltb retryCount' maxRetries
                   then sleep (Z.min (1000 * 2 ^ retryCount') 5000)
                   else ret tt);
             chatQuery_loop fuel' query retryCount' (Some error))
    end
  else
    match lastError with
    | Some error =>
        ret (handleError error "Failed to connect after multiple attempts")
    | None => throw (TypeError_read VNull "response")
    end.

(** [chatQuery(query)] *)
Definition chatQuery (query : value) : M Envelope :=
  chatQuery_loop (Z.to_nat maxRetries) query 0 None.

End Service.

End Deployed.

(** ** The copy with request tracing: no retry loop, no reshaping of
    amenities; its interceptor is the one of the first copy. Its chat request
    asks for a deadline of 30000 ms where the first copy asks for 10000 ms:
    [transport] is the network as this copy's requests meet it. *)

Module Debug.

Section Service.

Context `{JsRuntime}.
Variable transport : nat -> request -> settled.

(** [chatQuery(query)] *)
Definition chatQuery (query : value) : M Envelope :=
  try_catch
    (do response <- axios transport (chat_request query);
     lift (standardizeResponse (resp_data response)))
    (fun error => ret (handleError error "Failed to process your request")).

(** [getPropertyAmenities(propertyId)] *)
Definition getPropertyAmenities (propertyId : value) : M Envelope :=
  try_catch
    (do response <- axios transport (GetAmenities propertyId);
     lift (standardizeResponse (resp_data response)))
    (fun error => ret (handleError error "Failed to retrieve amenities")).

End Service.

End Debug.

(** ** src/services/apiService.js: the client built on [fetch] *)

Module ApiService.

(** What a promise is rejected with, as [makeRequest] inspects it:
    [error.name] and [error.message]. *)
Record raised : Type := mkRaised {
  error_name : string;
  error_message : string
}.

(** [new Error(msg)] *)
Definition new_Error (msg : string) : raised := mkRaised "Error" msg.

(** How [response.json()] settles. *)
Inductive body_outcome : Type :=
| Parsed (data : value)
| Unparsable (error : raised).

(** How [fetch] settles: with a response, whatever its status, or with a
    failure (an AbortError once the controller has aborted, a TypeError such
    as "Failed to fetch" when no connection could be made). *)
Inductive fetch_outcome : Type :=
| Responded (status : Z) (body : body_outcome)
| Failed (error : raised).

(** [response.ok] *)
Definition ok (status : Z) : bool := Z.leb 200 status && Z.leb status 299.

(** The status as the template literal renders it. *)
Definition render_status (status : Z) : string :=
  NilZero.string_of_int (Z.to_int status).

Inductive result : Type :=
| Returned (data : value)
| Raised (error : raised).

(** The [try] block of [makeRequest]. *)
Definition request_body (o : fetch_outcome) : result :=
  match o with
  | Responded status body =>
      if negb (ok status)
      then Raised (new_Error ("HTTP error! status: " +:+ render_status status))
      else match body with
           | Parsed data => Returned data
           | Unparsable error => Raised error
           end
  | Failed error => Raised error
  end.

(** The [catch] block of [makeRequest]. *)
Definition translate (error : raised) : result :=
  if String.eqb (error_name error) "AbortError" then
    Raised (new_Error "Request timeout - please try again")
  else if includes (error_message error) "Failed to fetch" then
    Raised (new_Error
              "Unable to connect to server. Please check your internet connection.")
  else
    Raised error.

Section Client.

(** [fetch], by the full address and the options it is called with. *)
Variable fetch : string -> value -> fetch_outcome.
Variable baseURL : string.

(** [makeRequest(url, options)] *)
Definition makeRequest (url : string) (options : value) : result :=
  match request_body (fetch (baseURL +:+ url) options) with
  | Returned data => Returned data
  | Raised error => translate error
  end.

End Client.

(** The [Error] object as [handleApiError] reads it. *)
Definition as_error (error : raised) : js_error :=
  mkError (error_message error) None None.

End ApiService.

(** ** The chat window's connection probe *)

Section ChatInterface.

Context `{JsRuntime}.
Variable transport : nat -> request -> settled.

(** [checkConnection]: the result is the status that is set. *)
Definition checkConnection : M string :=
  try_catch
    (step checkHealth transport;
     ret "connected")
    (fun error => ret "disconnected").

End ChatInterface.

(** * Properties *)

(** Lookups in object literals. *)
Ltac read_fields :=
  repeat (rewrite lookup_insert_eq
          || (rewrite lookup_insert_ne by discriminate)
          || rewrite lookup_empty);
  simpl.

Section Values.

Lemma js_or_truthy a b : truthy a = true -> js_or a b = a.
Proof. unfold js_or. by intros ->. Qed.

Lemma js_or_falsy a b : truthy a = false -> js_or a b = b.
Proof. unfold js_or. by intros ->. Qed.

Lemma truthy_js_or a b : truthy b = true -> truthy (js_or a b) = true.
Proof. unfold js_or. by destruct (truthy a) eqn:E. Qed.

Lemma js_or_twice a b : js_or (js_or a b) b = js_or a b.
Proof.
  unfold js_or at 2 3. destruct (truthy a) eqn:E.
  - by apply js_or_truthy.
  - unfold js_or. by destruct (truthy b).
Qed.

Lemma js_or_absorb a b c : truthy b = true -> js_or (js_or a b) c = js_or a b.
Proof. intros Hb. by apply js_or_truthy, truthy_js_or. Qed.

(** [a || "success"] is "error" only when [a] is. *)
Lemma js_or_success_error a :
  js_or a (VStr "success") = VStr "error" -> a = VStr "error".
Proof. unfold js_or. by destruct (truthy a). Qed.

Lemma truthy_not_nullish v : truthy v = true -> nullish v = false.
Proof. by destruct v. Qed.

Lemma get_prop_defined v k : nullish v = false -> get_prop v k = Normal (prop v k).
Proof. unfold get_prop. by intros ->. Qed.

Lemma prop_obj m k : prop (VObj m) k = default VUndefined (m !! k).
Proof. reflexivity. Qed.

Lemma prop_nullish v k : nullish v = true -> prop v k = VUndefined.
Proof. by destruct v. Qed.

End Values.

Section Normalizer.

Context `{JsRuntime}.

Lemma standardizeResponse_defined body :
  nullish body = false -> standardizeResponse body = Normal (standardized body).
Proof.
  intros Hb. unfold standardizeResponse. by rewrite !get_prop_defined.
Qed.

Lemma standardizeResponse_nullish body :
  nullish body = true ->
  standardizeResponse body = Throw (TypeError_read body "status").
Proof. intros Hb. unfold standardizeResponse, get_prop. by rewrite Hb. Qed.

Lemma settle_error dflt body :
  status (settle dflt body) = VStr "error" ->
  data (settle dflt body) = VObj ∅ \/ prop body "status" = VStr "error".
Proof.
  unfold settle. destruct (nullish body); [by left|].
  simpl. intros Hs%js_or_success_error. by right.
Qed.

(** C9. A body that has no [data] field, or a falsy one, becomes the
    envelope's [data] as a whole: its own status, message and timestamp
    fields reappear nested inside [data]. *)
Theorem standardizeResponse_without_data body :
  nullish body = false ->
  truthy (prop body "data") = false ->
  standardizeResponse body =
    Normal {| status := js_or (prop body "status") (VStr "success");
              message := js_or (prop body "message") (VStr "Success");
              data := body;
              timestamp := js_or (prop body "timestamp") (VStr now) |}.
Proof.
  intros Hb Hd. rewrite standardizeResponse_defined by done.
  unfold standardized. by rewrite (js_or_falsy (prop body "data")).
Qed.

(** C7, as amended. Normalising an already-canonical envelope whose message
    is not the empty string returns that envelope. *)
Theorem standardizeResponse_idempotent e :
  canonical e = true ->
  message e <> VStr "" ->
  standardizeResponse (envelope_object e) = Normal e.
Proof.
  destruct e as [s m d t]. unfold canonical. simpl.
  destruct s as [| | | | |s| |]; try done.
  destruct m as [| | | | |m| |]; try done.
  destruct d as [| | | | | | |d]; try done.
  destruct t as [| | | | |t| |]; try done.
  intros [Hs Ht]%andb_prop Hm.
  rewrite standardizeResponse_defined by done.
  unfold standardized, envelope_object, prop. simpl. read_fields.
  assert (truthy (VStr s) = true) as Hs'.
  { simpl. apply orb_prop in Hs as [Hs|Hs]; apply String.eqb_eq in Hs; by subst. }
  assert (truthy (VStr m) = true) as Hm'.
  { simpl. destruct (String.eqb_spec m ""); [by subst|done]. }
  by rewrite (js_or_truthy (VStr s)), (js_or_truthy (VStr m)),
    (js_or_truthy (VObj d)), (js_or_truthy (VStr t)).
Qed.

End Normalizer.

Section Facade.

Context `{JsRuntime}.
Variable transport : nat -> request -> settled.

(** *** How each method runs *)

(** With the interceptor installed, awaiting a request never raises. *)
Lemma axios_run req w :
  exists response,
    axios transport req w = (Normal response, issue req w)
    /\ resp_data response = delivered transport (length (sent w)) req.
Proof.
  unfold axios, delivered.
  destruct (transport (length (sent w)) req) as [r|e]; simpl; eauto.
Qed.

Lemma delivered_rejected n req e :
  transport n req = Rejected e ->
  delivered transport n req =
    VObj (<["status" := VStr "error"]>
         (<["message" := js_or (js_or (response_message e)
                                  (VStr (err_message e)))
                           (VStr "Network error occurred")]>
         (<["timestamp" := VStr now]> ∅))).
Proof. unfold delivered. by intros ->. Qed.

Lemma checkHealth_run w :
  checkHealth transport w
  = (Normal (delivered transport (length (sent w)) GetHealth), issue GetHealth w).
Proof.
  unfold checkHealth, try_catch, bind.
  destruct (axios_run GetHealth w) as (r & -> & <-). reflexivity.
Qed.

(** A request followed by [standardizeResponse], inside [try]/[catch]. *)
Lemma normalising_call_run req dflt w :
  try_catch
    (do response <- axios transport req;
     lift (standardizeResponse (resp_data response)))
    (fun error => ret (handleError error dflt)) w
  = (Normal (settle dflt (delivered transport (length (sent w)) req)),
     issue req w).
Proof.
  unfold try_catch, bind.
  destruct (axios_run req w) as (r & -> & ->).
  unfold lift, settle.
  destruct (nullish (delivered transport (length (sent w)) req)) eqn:Hb.
  - by rewrite standardizeResponse_nullish.
  - by rewrite standardizeResponse_defined.
Qed.

Lemma chat_attempt_run query w :
  chat_attempt transport query w
  = (standardizeResponse
       (delivered transport (length (sent w)) (chat_request query)),
     issue (chat_request query) w).
Proof.
  unfold chat_attempt, bind.
  destruct (axios_run (chat_request query) w) as (r & -> & <-). reflexivity.
Qed.

Lemma negotiatePrice_invalid propertyId offer w :
  invalid_negotiation propertyId offer = true ->
  negotiatePrice transport propertyId offer w
  = (Normal {| status := VStr "error";
               message := VStr "Invalid property ID or offer amount";
               data := VObj ∅;
               timestamp := VStr now |}, w).
Proof.
  intros Hv. unfold negotiatePrice, try_catch, bind. by rewrite Hv.
Qed.

Lemma negotiatePrice_valid propertyId offer w :
  invalid_negotiation propertyId offer = false ->
  negotiatePrice transport propertyId offer w
  = (Normal (settle "Failed to process negotiation"
               (delivered transport (length (sent w))
                  (negotiate_request propertyId offer))),
     issue (negotiate_request propertyId offer) w).
Proof.
  intros Hv.
  rewrite <- (normalising_call_run _ "Failed to process negotiation").
  unfold negotiatePrice, try_catch, bind. by rewrite Hv.
Qed.

Lemma finalizeDeal_invalid propertyId dealDetails w :
  truthy propertyId = false ->
  finalizeDeal transport propertyId dealDetails w
  = (Normal {| status := VStr "error";
               message := VStr "Invalid property ID";
               data := VObj ∅;
               timestamp := VStr now |}, w).
Proof.
  intros Hv. unfold finalizeDeal, try_catch, bind. by rewrite Hv.
Qed.

Lemma finalizeDeal_valid propertyId dealDetails w :
  truthy propertyId = true ->
  finalizeDeal transport propertyId dealDetails w
  = (Normal (settle "Failed to finalize deal"
               (delivered transport (length (sent w))
                  (PostCloseDeal propertyId (default_details dealDetails)))),
     issue (PostCloseDeal propertyId (default_details dealDetails)) w).
Proof.
  intros Hv.
  rewrite <- (normalising_call_run _ "Failed to finalize deal").
  unfold finalizeDeal, try_catch, bind. by rewrite Hv.
Qed.

End Facade.

Section Retry.

Context `{JsRuntime}.
Variable transport : nat -> request -> settled.

(** One turn of the loop: the attempt returns, or its failure is caught,
    the back-off is waited when another attempt is due, and the loop goes on. *)
Lemma chatQuery_loop_step fuel query retryCount lastError w :
  Z.ltb retryCount maxRetries = true ->
  chatQuery_loop transport (S fuel) query retryCount lastError w
  = match standardizeResponse
            (delivered transport (length (sent w)) (chat_request query)) with
    | Normal env => (Normal env, issue (chat_request query) w)
    | Throw error =>
        chatQuery_loop transport fuel query (retryCount + 1) (Some error)
          (if Z.ltb (retryCount + 1) maxRetries
           then mkWorld (sent w ++ [chat_request query])
                  (waited w ++ [Z.min (1000 * 2 ^ (retryCount + 1)) 5000])
           else issue (chat_request query) w)
    | Diverged => (Diverged, issue (chat_request query) w)
    end.
Proof.
  intros Hlt. cbn [chatQuery_loop]. rewrite Hlt.
  unfold try_catch. rewrite chat_attempt_run.
  destruct (standardizeResponse _) as [env|error|]; try reflexivity.
  unfold bind. by destruct (Z.ltb (retryCount + 1) maxRetries).
Qed.

Lemma chatQuery_loop_exit fuel query retryCount error w :
  Z.ltb retryCount maxRetries = false ->
  chatQuery_loop transport fuel query retryCount (Some error) w
  = (Normal (handleError error "Failed after multiple attempts"), w).
Proof. intros Hge. destruct fuel; cbn [chatQuery_loop]; by rewrite Hge. Qed.

(** The loop ends within [maxRetries - retryCount] turns: more fuel changes
    nothing. *)
Lemma chatQuery_loop_fuel fuel query retryCount error w :
  (0 <= retryCount)%Z ->
  (Z.to_nat (maxRetries - retryCount) <= fuel)%nat ->
  chatQuery_loop transport fuel query retryCount (Some error) w
  = chatQuery_loop transport (Z.to_nat (maxRetries - retryCount)) query
      retryCount (Some error) w.
Proof.
  revert retryCount error w.
  induction fuel as [|fuel IH]; intros retryCount error w Hpos Hfuel.
  - by replace (Z.to_nat (maxRetries - retryCount)) with 0%nat by lia.
  - destruct (Z.ltb retryCount maxRetries) eqn:Hlt.
    + apply Z.ltb_lt in Hlt.
      replace (Z.to_nat (maxRetries - retryCount))
        with (S (Z.to_nat (maxRetries - (retryCount + 1)))) by lia.
      rewrite !chatQuery_loop_step by by apply Z.ltb_lt.
      destruct (standardizeResponse _) as [env|e|]; try reflexivity.
      apply IH; lia.
    + by rewrite !chatQuery_loop_exit.
Qed.

(** The whole of [chatQuery], by the bodies its attempts receive: an attempt
    whose body is [null] or [undefined] raises and is tried again. *)
Lemma chatQuery_run query w :
  let req := chat_request query in
  let n := length (sent w) in
  chatQuery transport query w
  = if nullish (delivered transport n req) then
      if nullish (delivered transport (S n) req) then
        (Normal (settle "Failed after multiple attempts"
                   (delivered transport (S (S n)) req)),
         mkWorld (sent w ++ [req; req; req]) (waited w ++ [2000; 4000]%Z))
      else
        (Normal (standardized (delivered transport (S n) req)),
         mkWorld (sent w ++ [req; req]) (waited w ++ [2000%Z]))
    else
      (Normal (standardized (delivered transport n req)), issue req w).
Proof.
  intros req n. unfold chatQuery.
  change (Z.to_nat maxRetries) with 3%nat.
  rewrite chatQuery_loop_step by reflexivity. fold req n.
  destruct (nullish (delivered transport n req)) eqn:H0;
    [rewrite standardizeResponse_nullish by done
    |by rewrite standardizeResponse_defined].
  change (Z.ltb (0 + 1) maxRetries) with true. cbv iota.
  rewrite chatQuery_loop_step by reflexivity. cbn [sent waited].
  rewrite length_app, Nat.add_1_r. fold req n.
  destruct (nullish (delivered transport (S n) req)) eqn:H1;
    [rewrite standardizeResponse_nullish by done
    |rewrite standardizeResponse_defined by done;
     unfold issue; cbn [sent waited]; by rewrite <- app_assoc].
  change (Z.ltb (0 + 1 + 1) maxRetries) with true. cbv iota.
  rewrite chatQuery_loop_step by reflexivity. cbn [sent waited].
  rewrite !length_app, !Nat.add_1_r. fold req n.
  unfold settle.
  destruct (nullish (delivered transport (S (S n)) req)) eqn:H2;
    [rewrite standardizeResponse_nullish by done
    |rewrite standardizeResponse_defined by done].
  - change (Z.ltb (0 + 1 + 1 + 1) maxRetries) with false. cbv iota.
    rewrite chatQuery_loop_exit by reflexivity.
    unfold issue; cbn [sent waited]. by rewrite <- !app_assoc.
  - unfold issue; cbn [sent waited]. by rewrite <- !app_assoc.
Qed.

End Retry.

Section RetryClaims.

Context `{JsRuntime}.
Variable transport : nat -> request -> settled.

Lemma raising_attempt_body query w e :
  fst (chat_attempt transport query w) = Throw e ->
  nullish (delivered transport (length (sent w)) (chat_request query)) = true.
Proof.
  rewrite chat_attempt_run. simpl.
  destruct (nullish (delivered _ _ _)) eqn:Hb; [done|].
  by rewrite standardizeResponse_defined.
Qed.

(** C2, as amended. When every attempt raises inside the [try] block,
    [chatQuery] makes exactly [maxRetries] = 3 attempts, waits
    [min(1000 * 2^k, 5000)] for k = 1 and k = 2, that is 2000 ms and then
    4000 ms, and returns the envelope [handleError] builds from the last
    failure. *)
Theorem chatQuery_retry_bound query w :
  every_attempt_raises transport query w ->
  exists e,
    fst (chat_attempt transport query
           (issue (chat_request query) (issue (chat_request query) w)))
    = Throw e
    /\ chatQuery transport query w
       = (Normal (handleError e "Failed after multiple attempts"),
          mkWorld (sent w ++ [chat_request query; chat_request query;
                              chat_request query])
                  (waited w ++ [Z.min (1000 * 2 ^ 1) 5000;
                                Z.min (1000 * 2 ^ 2) 5000]))
    /\ Z.of_nat (length [chat_request query; chat_request query;
                         chat_request query]) = maxRetries
    /\ [Z.min (1000 * 2 ^ 1) 5000; Z.min (1000 * 2 ^ 2) 5000] = [2000; 4000]%Z.
Proof.
  intros Hraise.
  set (req := chat_request query).
  assert (length (sent (issue req w)) = S (length (sent w))) as Hone
    by (cbn [issue sent]; rewrite length_app; simpl; lia).
  assert (length (sent (issue req (issue req w))) = S (S (length (sent w))))
    as Htwo by (cbn [issue sent]; rewrite !length_app; simpl; lia).
  unfold every_attempt_raises in Hraise.
  change (Z.to_nat maxRetries) with 3%nat in Hraise.
  destruct (Hraise w ltac:(lia)) as [e0 H0%raising_attempt_body].
  destruct (Hraise (issue req w) ltac:(lia)) as [e1 H1%raising_attempt_body].
  destruct (Hraise (issue req (issue req w)) ltac:(lia)) as [e2 Hlast].
  pose proof (raising_attempt_body _ _ _ Hlast) as H2.
  rewrite Hone in H1. rewrite Htwo in H2.
  fold req in H0, H1, H2.
  exists e2. split; [exact Hlast|]. split; [|done].
  rewrite chat_attempt_run, Htwo in Hlast. fold req in Hlast.
  rewrite standardizeResponse_nullish in Hlast by done.
  injection Hlast as <-.
  rewrite chatQuery_run. fold req. rewrite H0, H1. unfold settle. by rewrite H2.
Qed.

Lemma chatQuery_rejected query w e :
  transport (length (sent w)) (chat_request query) = Rejected e ->
  chatQuery transport query w
  = (Normal {| status := VStr "error";
               message := js_or (js_or (response_message e)
                                   (VStr (err_message e)))
                            (VStr "Network error occurred");
               data := delivered transport (length (sent w))
                         (chat_request query);
               timestamp := VStr now |},
     mkWorld (sent w ++ [chat_request query]) (waited w)).
Proof.
  intros Hrej.
  rewrite chatQuery_run, (delivered_rejected _ _ _ e Hrej). cbn [nullish].
  unfold issue, standardized. rewrite !prop_obj. read_fields.
  rewrite js_or_absorb by done.
  do 3 f_equal. unfold js_or. by destruct (truthy (VStr now)).
Qed.

(** C3, as amended. When the transport fails the first attempt with a
    failure of a non-transient kind (a 404, another 4xx status, a failure
    that carries no signal at all), the interceptor resolves it, and
    [chatQuery] returns at once: one request, no back-off, and an envelope
    with status "error" that carries the failure's message. *)
Theorem chatQuery_transport_failure query w e :
  transport (length (sent w)) (chat_request query) = Rejected e ->
  isTransient (classify e) = false ->
  exists env w',
    chatQuery transport query w = (Normal env, w')
    /\ sent w' = (sent w ++ [chat_request query])%list
    /\ waited w' = waited w
    /\ status env = VStr "error"
    /\ message env = js_or (js_or (response_message e)
                              (VStr (err_message e)))
                       (VStr "Network error occurred").
Proof.
  intros Hrej _. rewrite (chatQuery_rejected _ _ _ Hrej). by do 2 eexists.
Qed.

End RetryClaims.

Section Amenities.

Context `{JsRuntime}.
Variable transport : nat -> request -> settled.

Lemma opt_prop_prop v k : opt_prop v k = prop v k.
Proof. unfold opt_prop. destruct (nullish v) eqn:E; [by rewrite prop_nullish|done]. Qed.

Lemma amenities_object_defined body :
  nullish body = false ->
  amenities_object body
  = Normal (VObj
      (<["status" := js_or (prop body "status") (VStr "success")]>
      (<["message" := js_or (prop body "message")
                        (VStr "Amenities retrieved successfully")]>
      (<["data" := VObj
           (<["amenities" :=
                js_or (if truthy (prop body "data")
                          && truthy (prop (prop body "data") "amenities")
                       then prop (prop body "data") "amenities"
                       else prop body "amenities") (VArr [])]>
           (<["property_info" :=
                js_or (prop (prop body "data") "property_info") (VObj ∅)]>
           (<["amenity_score" :=
                js_or (prop (prop body "data") "amenity_score") (VObj ∅)]> ∅)))]>
      (<["timestamp" := js_or (prop body "timestamp") (VStr now)]> ∅))))).
Proof.
  intros Hb. unfold amenities_object.
  rewrite (get_prop_defined body "data") by done. cbn [cbind].
  rewrite !opt_prop_prop.
  destruct (truthy (prop body "data")) eqn:Hd.
  - rewrite (get_prop_defined (prop body "data"))
      by by apply truthy_not_nullish.
    cbn [cbind andb].
    destruct (truthy (prop (prop body "data") "amenities")) eqn:Ha;
      by rewrite !get_prop_defined.
  - cbn [cbind andb]. rewrite Hd. by rewrite !get_prop_defined.
Qed.

Lemma amenities_object_nullish body :
  nullish body = true ->
  amenities_object body = Throw (TypeError_read body "data").
Proof. intros Hb. unfold amenities_object, get_prop. by rewrite Hb. Qed.

Lemma getPropertyAmenities_defined propertyId w :
  let body := delivered transport (length (sent w)) (GetAmenities propertyId) in
  let nested := prop body "data" in
  nullish body = false ->
  getPropertyAmenities transport propertyId w
  = (Normal
       {| status := js_or (prop body "status") (VStr "success");
          message := js_or (prop body "message")
                       (VStr "Amenities retrieved successfully");
          data := VObj
            (<["amenities" :=
                 js_or (if truthy nested && truthy (prop nested "amenities")
                        then prop nested "amenities"
                        else prop body "amenities") (VArr [])]>
            (<["property_info" := js_or (prop nested "property_info") (VObj ∅)]>
            (<["amenity_score" := js_or (prop nested "amenity_score") (VObj ∅)]>
               ∅)));
          timestamp := js_or (prop body "timestamp") (VStr now) |},
     issue (GetAmenities propertyId) w).
Proof.
  intros body nested Hb.
  unfold getPropertyAmenities, try_catch, bind.
  destruct (axios_run transport (GetAmenities propertyId) w) as (r & -> & ->).
  fold body. unfold lift.
  rewrite amenities_object_defined by done. cbn [cbind].
  rewrite standardizeResponse_defined by done.
  unfold standardized. rewrite !prop_obj. read_fields.
  rewrite !js_or_absorb by done.
  by rewrite js_or_twice, (js_or_truthy (VObj _)).
Qed.

Lemma getPropertyAmenities_nullish propertyId w :
  let body := delivered transport (length (sent w)) (GetAmenities propertyId) in
  nullish body = true ->
  getPropertyAmenities transport propertyId w
  = (Normal (handleError (TypeError_read body "data")
               "Failed to retrieve amenities"),
     issue (GetAmenities propertyId) w).
Proof.
  intros body Hb.
  unfold getPropertyAmenities, try_catch, bind.
  destruct (axios_run transport (GetAmenities propertyId) w) as (r & -> & ->).
  fold body. unfold lift. by rewrite amenities_object_nullish.
Qed.

(** C6, as amended. For every body other than [null] and [undefined] the
    envelope's data has exactly the keys amenities, property_info and
    amenity_score. amenities is the nested [data.amenities] when truthy, else
    the top-level [amenities] when truthy, else the empty sequence;
    property_info and amenity_score are read under [data] only, and default
    to the empty mapping. *)
Theorem getPropertyAmenities_shape propertyId w :
  let body := delivered transport (length (sent w)) (GetAmenities propertyId) in
  let nested := prop body "data" in
  nullish body = false ->
  exists fields : gmap string value,
    getPropertyAmenities transport propertyId w
    = (Normal {| status := js_or (prop body "status") (VStr "success");
                 message := js_or (prop body "message")
                              (VStr "Amenities retrieved successfully");
                 data := VObj fields;
                 timestamp := js_or (prop body "timestamp") (VStr now) |},
       issue (GetAmenities propertyId) w)
    /\ dom fields = {[ "amenities"; "property_info"; "amenity_score" ]}
    /\ fields !! "amenities"
       = Some (js_or (if truthy nested && truthy (prop nested "amenities")
                      then prop nested "amenities"
                      else prop body "amenities") (VArr []))
    /\ fields !! "property_info"
       = Some (js_or (prop nested "property_info") (VObj ∅))
    /\ fields !! "amenity_score"
       = Some (js_or (prop nested "amenity_score") (VObj ∅)).
Proof.
  intros body nested Hb. eexists. split.
  - by apply getPropertyAmenities_defined.
  - split.
    + rewrite !dom_insert_L, dom_empty_L. set_solver.
    + repeat split; by read_fields.
Qed.

End Amenities.

Section Validation.

Context `{JsRuntime}.
Variable transport : nat -> request -> settled.

Lemma invalid_negotiation_falsy_id propertyId offer :
  truthy propertyId = false -> invalid_negotiation propertyId offer = true.
Proof. unfold invalid_negotiation. by intros ->. Qed.

Lemma invalid_negotiation_positive propertyId offer :
  truthy propertyId = true -> positive_number offer = true ->
  invalid_negotiation propertyId offer = false.
Proof.
  unfold invalid_negotiation, positive_number, le_zero. intros ->.
  destruct offer as [| | |z| | | |]; try done. intros Hz%Z.ltb_lt. simpl.
  rewrite orb_false_iff, negb_false_iff, negb_true_iff. split.
  - apply Z.eqb_neq. lia.
  - apply Z.leb_gt. lia.
Qed.

(** C5, as amended. [negotiatePrice] returns the error envelope, with no
    request and no wait, when [propertyId] is falsy, when [offer] is falsy, or
    when [offer <= 0]; with a truthy [propertyId] and a positive number as
    [offer] it issues the request and normalises what comes back. *)
Theorem negotiatePrice_validation propertyId offer w :
  (truthy propertyId = false \/ truthy offer = false \/ le_zero offer = true ->
   negotiatePrice transport propertyId offer w
   = (Normal {| status := VStr "error";
                message := VStr "Invalid property ID or offer amount";
                data := VObj ∅;
                timestamp := VStr now |}, w))
  /\ (truthy propertyId = true -> positive_number offer = true ->
      negotiatePrice transport propertyId offer w
      = (Normal (settle "Failed to process negotiation"
                   (delivered transport (length (sent w))
                      (negotiate_request propertyId offer))),
         mkWorld (sent w ++ [negotiate_request propertyId offer]) (waited w))).
Proof.
  split.
  - intros Hbad. apply negotiatePrice_invalid. unfold invalid_negotiation.
    destruct Hbad as [-> | [-> | ->]]; [done| |];
      by rewrite ?orb_true_r.
  - intros Hid Hoffer. apply negotiatePrice_valid.
    by apply invalid_negotiation_positive.
Qed.

(** C10. A falsy [propertyId] (0, the empty string, NaN, false, as well as
    null and undefined) makes [negotiatePrice] and [finalizeDeal] return
    their error envelope without handing any request to the transport. *)
Theorem falsy_propertyId_short_circuits propertyId :
  truthy propertyId = false ->
  (forall offer w,
     negotiatePrice transport propertyId offer w
     = (Normal {| status := VStr "error";
                  message := VStr "Invalid property ID or offer amount";
                  data := VObj ∅;
                  timestamp := VStr now |}, w))
  /\ (forall dealDetails w,
        finalizeDeal transport propertyId dealDetails w
        = (Normal {| status := VStr "error";
                     message := VStr "Invalid property ID";
                     data := VObj ∅;
                     timestamp := VStr now |}, w)).
Proof.
  intros Hid. split; intros.
  - by apply negotiatePrice_invalid, invalid_negotiation_falsy_id.
  - by apply finalizeDeal_invalid.
Qed.

End Validation.

Section Boundary.

Context `{JsRuntime}.
Variable transport : nat -> request -> settled.

Lemma standardized_error body :
  status (standardized body) = VStr "error" -> prop body "status" = VStr "error".
Proof. simpl. apply js_or_success_error. Qed.

Lemma rejected_body_status n req e :
  transport n req = Rejected e ->
  nullish (delivered transport n req) = false
  /\ prop (delivered transport n req) "status" = VStr "error".
Proof.
  intros Hrej. rewrite (delivered_rejected _ _ _ e Hrej). split; [done|].
  rewrite prop_obj. by read_fields.
Qed.

Lemma settle_rejected dflt n req e :
  transport n req = Rejected e ->
  status (settle dflt (delivered transport n req)) = VStr "error".
Proof.
  intros [Hb Hs]%rejected_body_status. unfold settle. rewrite Hb. simpl.
  by rewrite Hs.
Qed.

(** The envelope [chatQuery] returns is built by [handleError], or is the
    normal form of one of the bodies it received. *)
Lemma chatQuery_result query w :
  exists env w',
    chatQuery transport query w = (Normal env, w')
    /\ (data env = VObj ∅ /\ status env = VStr "error"
        \/ exists n, env = standardized
                             (delivered transport n (chat_request query))).
Proof.
  rewrite chatQuery_run.
  destruct (nullish (delivered _ _ _)) eqn:H0; [|eauto 6].
  destruct (nullish (delivered transport (S _) _)) eqn:H1; [|eauto 6].
  unfold settle.
  destruct (nullish (delivered transport (S (S _)) _)) eqn:H2; eauto 6.
Qed.

(** C1, as amended. When no body the facade reads carries the status
    "error", every envelope that [chatQuery], [getPropertyAmenities],
    [negotiatePrice] or [finalizeDeal] returns with status "error" was built
    by [handleError] and has the empty mapping as data. *)
Theorem client_errors_carry_no_data query propertyId offer dealDetails w env w' :
  no_error_body transport ->
  chatQuery transport query w = (Normal env, w')
  \/ getPropertyAmenities transport propertyId w = (Normal env, w')
  \/ negotiatePrice transport propertyId offer w = (Normal env, w')
  \/ finalizeDeal transport propertyId dealDetails w = (Normal env, w') ->
  status env = VStr "error" ->
  data env = VObj ∅.
Proof.
  intros Hclean [Hrun | [Hrun | [Hrun | Hrun]]] Hstatus.
  - destruct (chatQuery_result query w) as (env0 & w0 & Hrun0 & Hcase).
    rewrite Hrun0 in Hrun. injection Hrun as -> ->.
    destruct Hcase as [[Hd _] | [n ->]]; [done|].
    by apply standardized_error, Hclean in Hstatus.
  - destruct (nullish (delivered transport (length (sent w))
                         (GetAmenities propertyId))) eqn:Hb.
    + rewrite getPropertyAmenities_nullish in Hrun by done.
      by injection Hrun as <- _.
    + rewrite getPropertyAmenities_defined in Hrun by done.
      injection Hrun as <- _. simpl in Hstatus.
      by apply js_or_success_error, Hclean in Hstatus.
  - destruct (invalid_negotiation propertyId offer) eqn:Hv.
    + rewrite negotiatePrice_invalid in Hrun by done. by injection Hrun as <- _.
    + rewrite negotiatePrice_valid in Hrun by done. injection Hrun as <- _.
      destruct (settle_error _ _ Hstatus) as [Hd | Hs]; [done|].
      by apply Hclean in Hs.
  - destruct (truthy propertyId) eqn:Hv.
    + rewrite finalizeDeal_valid in Hrun by done. injection Hrun as <- _.
      destruct (settle_error _ _ Hstatus) as [Hd | Hs]; [done|].
      by apply Hclean in Hs.
    + rewrite finalizeDeal_invalid in Hrun by done. by injection Hrun as <- _.
Qed.

Lemma chatQuery_fuel query w fuel :
  (Z.to_nat maxRetries <= fuel)%nat ->
  chatQuery_loop transport fuel query 0 None w = chatQuery transport query w.
Proof.
  unfold chatQuery. change (Z.to_nat maxRetries) with 3%nat. intros Hfuel.
  destruct fuel as [|fuel]; [lia|].
  rewrite !chatQuery_loop_step by reflexivity.
  destruct (standardizeResponse _) as [env|e|]; try reflexivity.
  rewrite chatQuery_loop_fuel; [reflexivity|lia|].
  change (Z.to_nat (maxRetries - (0 + 1))) with 2%nat. lia.
Qed.

(** C4, as amended. None of the five operations raises or fails to return.
    [chatQuery], [getPropertyAmenities], [negotiatePrice] and [finalizeDeal]
    return a four-field envelope, with status "error" whenever the transport
    failed their request; [checkHealth] returns the body it received as it
    is. *)
Theorem operations_return query propertyId offer dealDetails w :
  (returns_envelope (chatQuery transport query) w
   /\ returns_envelope (getPropertyAmenities transport propertyId) w
   /\ returns_envelope (negotiatePrice transport propertyId offer) w
   /\ returns_envelope (finalizeDeal transport propertyId dealDetails) w)
  /\ (forall fuel, (Z.to_nat maxRetries <= fuel)%nat ->
        chatQuery_loop transport fuel query 0 None w
        = chatQuery transport query w)
  /\ ((forall e, transport (length (sent w)) (chat_request query) = Rejected e ->
         returns_error (chatQuery transport query) w)
      /\ (forall e, transport (length (sent w)) (GetAmenities propertyId)
                    = Rejected e ->
            returns_error (getPropertyAmenities transport propertyId) w)
      /\ (forall e, transport (length (sent w))
                      (negotiate_request propertyId offer) = Rejected e ->
            returns_error (negotiatePrice transport propertyId offer) w)
      /\ (forall e, transport (length (sent w))
                      (PostCloseDeal propertyId (default_details dealDetails))
                    = Rejected e ->
            returns_error (finalizeDeal transport propertyId dealDetails) w))
  /\ checkHealth transport w
     = (Normal (delivered transport (length (sent w)) GetHealth),
        issue GetHealth w).
Proof.
  unfold returns_envelope, returns_error.
  split; [|split; [|split]].
  - repeat split.
    + destruct (chatQuery_result query w) as (env & w' & Hrun & _). eauto.
    + destruct (nullish (delivered transport (length (sent w))
                           (GetAmenities propertyId))) eqn:Hb.
      * rewrite getPropertyAmenities_nullish by done. eauto.
      * rewrite getPropertyAmenities_defined by done. eauto.
    + destruct (invalid_negotiation propertyId offer) eqn:Hv.
      * rewrite negotiatePrice_invalid by done. eauto.
      * rewrite negotiatePrice_valid by done. eauto.
    + destruct (truthy propertyId) eqn:Hv.
      * rewrite finalizeDeal_valid by done. eauto.
      * rewrite finalizeDeal_invalid by done. eauto.
  - intros fuel Hfuel. by apply chatQuery_fuel.
  - repeat split; intros e Hrej.
    + rewrite (chatQuery_rejected _ _ _ _ Hrej). eauto.
    + destruct (rejected_body_status _ _ _ Hrej) as [Hb Hs].
      rewrite getPropertyAmenities_defined by done.
      do 2 eexists. split; [reflexivity|]. simpl. by rewrite Hs.
    + destruct (invalid_negotiation propertyId offer) eqn:Hv.
      * rewrite negotiatePrice_invalid by done. eauto.
      * rewrite negotiatePrice_valid by done.
        do 2 eexists. split; [reflexivity|]. by eapply settle_rejected.
    + destruct (truthy propertyId) eqn:Hv.
      * rewrite finalizeDeal_valid by done.
        do 2 eexists. split; [reflexivity|]. by eapply settle_rejected.
      * rewrite finalizeDeal_invalid by done. eauto.
  - apply checkHealth_run.
Qed.

End Boundary.

(** * Further properties of the service *)

Section Envelopes.

Context `{JsRuntime}.
Variable transport : nat -> request -> settled.

Lemma truthy_nonempty s : s <> "" -> truthy (VStr s) = true.
Proof. intros Hs. simpl. by destruct (String.eqb_spec s ""). Qed.

Lemma standardized_well_formed body :
  nullish body = false ->
  truthy (status (standardized body)) = true
  /\ truthy (message (standardized body)) = true
  /\ nullish (data (standardized body)) = false.
Proof.
  intros Hb. simpl. split; [by apply truthy_js_or|].
  split; [by apply truthy_js_or|].
  unfold js_or. destruct (truthy (prop body "data")) eqn:Hd; [|done].
  by apply truthy_not_nullish.
Qed.

Lemma handleError_well_formed error dflt :
  dflt <> "" ->
  truthy (status (handleError error dflt)) = true
  /\ truthy (message (handleError error dflt)) = true
  /\ nullish (data (handleError error dflt)) = false.
Proof.
  intros Hd. split; [done|]. split; [|done].
  unfold handleError. cbn [message].
  destruct (truthy (response_message error)) eqn:Hr; [done|].
  destruct (truthy (VStr (err_message error))) eqn:Hm; [done|].
  by apply truthy_nonempty.
Qed.

Lemma settle_well_formed dflt body :
  dflt <> "" ->
  truthy (status (settle dflt body)) = true
  /\ truthy (message (settle dflt body)) = true
  /\ nullish (data (settle dflt body)) = false.
Proof.
  intros Hd. unfold settle. destruct (nullish body) eqn:Hb.
  - by apply handleError_well_formed.
  - by apply standardized_well_formed.
Qed.

(** [chatQuery] ends with the envelope of one of the bodies it received. *)
Lemma chatQuery_settles query w :
  exists n,
    fst (chatQuery transport query w)
    = Normal (settle "Failed after multiple attempts"
                (delivered transport n (chat_request query))).
Proof.
  rewrite chatQuery_run. unfold settle.
  destruct (nullish (delivered _ _ _)) eqn:H0;
    [|eexists; cbn [fst]; by rewrite H0].
  destruct (nullish (delivered transport (S _) _)) eqn:H1;
    [|eexists; cbn [fst]; by rewrite H1].
  by eexists.
Qed.

(** X1. Whatever the backend and the network do, an envelope returned by
    [chatQuery], [getPropertyAmenities], [negotiatePrice] or [finalizeDeal]
    has a truthy status, a truthy message, and data that is neither [null]
    nor [undefined]. *)
Theorem envelopes_well_formed query propertyId offer dealDetails w env :
  fst (chatQuery transport query w) = Normal env
  \/ fst (getPropertyAmenities transport propertyId w) = Normal env
  \/ fst (negotiatePrice transport propertyId offer w) = Normal env
  \/ fst (finalizeDeal transport propertyId dealDetails w) = Normal env ->
  truthy (status env) = true
  /\ truthy (message env) = true
  /\ nullish (data env) = false.
Proof.
  intros [Hrun | [Hrun | [Hrun | Hrun]]].
  - destruct (chatQuery_settles query w) as [n Hn].
    rewrite Hn in Hrun. injection Hrun as <-. by apply settle_well_formed.
  - destruct (nullish (delivered transport (length (sent w))
                         (GetAmenities propertyId))) eqn:Hb.
    + rewrite getPropertyAmenities_nullish in Hrun by done.
      injection Hrun as <-. by apply handleError_well_formed.
    + rewrite getPropertyAmenities_defined in Hrun by done.
      injection Hrun as <-. cbn [status message data].
      split; [by apply truthy_js_or|]. split; [by apply truthy_js_or|done].
  - destruct (invalid_negotiation propertyId offer) eqn:Hv.
    + rewrite negotiatePrice_invalid in Hrun by done. by injection Hrun as <-.
    + rewrite negotiatePrice_valid in Hrun by done.
      injection Hrun as <-. by apply settle_well_formed.
  - destruct (truthy propertyId) eqn:Hv.
    + rewrite finalizeDeal_valid in Hrun by done.
      injection Hrun as <-. by apply settle_well_formed.
    + rewrite finalizeDeal_invalid in Hrun by done. by injection Hrun as <-.
Qed.

(** X2. [chatQuery] hands the transport between one and three requests, all
    of them the same chat request, and waits once between two consecutive
    attempts and never after the last: n requests go with the first n - 1 of
    the delays 2000 ms and 4000 ms. *)
Theorem chatQuery_accounting query w :
  exists n,
    (1 <= n <= 3)%nat
    /\ sent (snd (chatQuery transport query w))
       = (sent w ++ replicate n (chat_request query))%list
    /\ waited (snd (chatQuery transport query w))
       = (waited w ++ take (n - 1) [2000; 4000]%Z)%list.
Proof.
  rewrite chatQuery_run.
  destruct (nullish (delivered _ _ _));
    [|exists 1%nat; split; [lia|]; simpl; by rewrite app_nil_r].
  destruct (nullish (delivered transport (S _) _));
    [exists 3%nat|exists 2%nat]; (split; [lia|done]).
Qed.

(** X3. The first attempt whose body can be read decides the result: when
    the bodies of the first [k] attempts are [null] or [undefined] and that
    of attempt [k] (k < 3) is not, [chatQuery] returns the normal form of
    that body after [k + 1] requests and [k] waits, and asks for no further
    body. *)
Theorem chatQuery_first_readable_body query w k :
  (k < 3)%nat ->
  (forall j, (j < k)%nat ->
     nullish (delivered transport (length (sent w) + j)
                (chat_request query)) = true) ->
  nullish (delivered transport (length (sent w) + k)
             (chat_request query)) = false ->
  chatQuery transport query w
  = (Normal (standardized
               (delivered transport (length (sent w) + k)
                  (chat_request query))),
     mkWorld (sent w ++ replicate (S k) (chat_request query))
             (waited w ++ take k [2000; 4000]%Z)).
Proof.
  intros Hk Hbefore Hread. rewrite chatQuery_run.
  destruct k as [|[|[|k]]]; [| | |lia].
  - rewrite Nat.add_0_r in *. rewrite Hread.
    unfold issue. simpl. by rewrite app_nil_r.
  - pose proof (Hbefore 0%nat ltac:(lia)) as H0.
    rewrite Nat.add_0_r in H0. rewrite Nat.add_1_r in *.
    by rewrite H0, Hread.
  - pose proof (Hbefore 0%nat ltac:(lia)) as H0.
    pose proof (Hbefore 1%nat ltac:(lia)) as H1.
    rewrite Nat.add_0_r in H0. rewrite Nat.add_1_r in H1.
    replace (length (sent w) + 2)%nat with (S (S (length (sent w))))
      in * by lia.
    rewrite H0, H1. unfold settle. by rewrite Hread.
Qed.

(** X4. Only [chatQuery] ever waits. [checkHealth] and
    [getPropertyAmenities] hand the transport exactly one request;
    [negotiatePrice] and [finalizeDeal] hand it exactly one when their
    check passes and none otherwise. *)
Theorem single_request_operations propertyId offer dealDetails w :
  snd (checkHealth transport w) = issue GetHealth w
  /\ snd (getPropertyAmenities transport propertyId w)
     = issue (GetAmenities propertyId) w
  /\ snd (negotiatePrice transport propertyId offer w)
     = (if invalid_negotiation propertyId offer then w
        else issue (negotiate_request propertyId offer) w)
  /\ snd (finalizeDeal transport propertyId dealDetails w)
     = (if truthy propertyId
        then issue (PostCloseDeal propertyId (default_details dealDetails)) w
        else w).
Proof.
  split; [by rewrite checkHealth_run|]. split; [|split].
  - destruct (nullish (delivered transport (length (sent w))
                         (GetAmenities propertyId))) eqn:Hb.
    + by rewrite getPropertyAmenities_nullish.
    + by rewrite getPropertyAmenities_defined.
  - destruct (invalid_negotiation propertyId offer) eqn:Hv.
    + by rewrite negotiatePrice_invalid.
    + by rewrite negotiatePrice_valid.
  - destruct (truthy propertyId) eqn:Hv.
    + by rewrite finalizeDeal_valid.
    + by rewrite finalizeDeal_invalid.
Qed.

End Envelopes.

Section Normalisation.

Context `{JsRuntime}.
Variable transport : nat -> request -> settled.

Lemma delivered_response n req st body :
  transport n req = Fulfilled (mkResponse st body) ->
  delivered transport n req = body.
Proof. unfold delivered. by intros ->. Qed.

Lemma standardized_envelope_object e :
  standardized (envelope_object e)
  = {| status := js_or (status e) (VStr "success");
       message := js_or (message e) (VStr "Success");
       data := js_or (data e) (envelope_object e);
       timestamp := js_or (timestamp e) (VStr now) |}.
Proof.
  unfold standardized. unfold envelope_object at 1 2 3 5.
  rewrite !prop_obj. by read_fields.
Qed.

(** X5. Normalising what [standardizeResponse] has produced changes
    nothing exactly when the data it produced is truthy: that is so for every
    truthy body, and fails for a body such as the empty string, whose
    envelope gets wrapped into the data of a second one. *)
Theorem standardizeResponse_twice body :
  nullish body = false ->
  (standardizeResponse (envelope_object (standardized body))
   = Normal (standardized body))
  <-> truthy (data (standardized body)) = true.
Proof.
  intros Hb. rewrite standardizeResponse_defined by done.
  rewrite standardized_envelope_object. split.
  - intros Heq.
    apply (f_equal (fun c => match c with
                             | Normal env => truthy (data env)
                             | _ => false
                             end)) in Heq.
    cbn [data] in Heq. by rewrite truthy_js_or in Heq.
  - intros Hd. rewrite (js_or_truthy (data _)) by done.
    cbn [status message timestamp standardized]. by rewrite !js_or_twice.
Qed.

(** X6. A body that is not an object (a string such as an HTML page or the
    empty body of a 204, a number, a boolean, an array) has none of the four
    fields: it is reported as a success, with the body itself as data. *)
Theorem standardizeResponse_non_object body :
  nullish body = false ->
  (forall fields, body <> VObj fields) ->
  standardizeResponse body
  = Normal {| status := VStr "success";
              message := VStr "Success";
              data := body;
              timestamp := VStr now |}.
Proof.
  intros Hb Hobj. rewrite standardizeResponse_defined by done.
  destruct body; try done. by destruct (Hobj m).
Qed.

Lemma standardized_canonical e :
  canonical e = true -> message e <> VStr "" ->
  standardized (envelope_object e) = e.
Proof.
  rewrite standardized_envelope_object.
  destruct e as [s m d t]. unfold canonical. cbn [status message data timestamp].
  destruct s as [| | | | |s| |]; try done.
  destruct m as [| | | | |m| |]; try done.
  destruct d as [| | | | | | |d]; try done.
  destruct t as [| | | | |t| |]; try done.
  intros [Hs Ht]%andb_prop Hm.
  assert (s <> "") as Hs'.
  { apply orb_prop in Hs as [Hs|Hs]; apply String.eqb_eq in Hs; by subst. }
  assert (m <> "") as Hm' by congruence.
  assert (t <> "") as Ht'.
  { intros ->. done. }
  by rewrite !js_or_truthy by (by apply truthy_nonempty || done).
Qed.

(** X7. A canonical envelope with a message that the backend answers with
    reaches the caller of [chatQuery], [negotiatePrice] and [finalizeDeal]
    unchanged, after that one request. *)
Theorem canonical_envelope_passes_through
    e st query propertyId offer dealDetails w :
  canonical e = true ->
  message e <> VStr "" ->
  (transport (length (sent w)) (chat_request query)
   = Fulfilled (mkResponse st (envelope_object e)) ->
   chatQuery transport query w = (Normal e, issue (chat_request query) w))
  /\ (invalid_negotiation propertyId offer = false ->
      transport (length (sent w)) (negotiate_request propertyId offer)
      = Fulfilled (mkResponse st (envelope_object e)) ->
      negotiatePrice transport propertyId offer w
      = (Normal e, issue (negotiate_request propertyId offer) w))
  /\ (truthy propertyId = true ->
      transport (length (sent w))
        (PostCloseDeal propertyId (default_details dealDetails))
      = Fulfilled (mkResponse st (envelope_object e)) ->
      finalizeDeal transport propertyId dealDetails w
      = (Normal e,
         issue (PostCloseDeal propertyId (default_details dealDetails)) w)).
Proof.
  intros Hc Hm. repeat split.
  - intros Hres%delivered_response.
    rewrite chatQuery_run, Hres. cbn [nullish envelope_object].
    fold (envelope_object e). by rewrite standardized_canonical.
  - intros Hv Hres%delivered_response.
    rewrite negotiatePrice_valid, Hres by done.
    unfold settle. cbn [nullish envelope_object].
    fold (envelope_object e). by rewrite standardized_canonical.
  - intros Hv Hres%delivered_response.
    rewrite finalizeDeal_valid, Hres by done.
    unfold settle. cbn [nullish envelope_object].
    fold (envelope_object e). by rewrite standardized_canonical.
Qed.

(** X8. When the transport fails the amenities request, the interceptor's
    body has none of the fields looked for: the envelope has status "error"
    and the failure's message, and its data is the three defaults, an empty
    sequence and two empty mappings. *)
Theorem getPropertyAmenities_transport_failure propertyId w e :
  transport (length (sent w)) (GetAmenities propertyId) = Rejected e ->
  getPropertyAmenities transport propertyId w
  = (Normal {| status := VStr "error";
               message := js_or (js_or (response_message e)
                                   (VStr (err_message e)))
                            (VStr "Network error occurred");
               data := VObj (<["amenities" := VArr []]>
                            (<["property_info" := VObj ∅]>
                            (<["amenity_score" := VObj ∅]> ∅)));
               timestamp := VStr now |},
     issue (GetAmenities propertyId) w).
Proof.
  intros Hrej.
  destruct (rejected_body_status _ _ _ _ Hrej) as [Hb _].
  rewrite getPropertyAmenities_defined by done.
  rewrite (delivered_rejected _ _ _ e Hrej).
  rewrite !prop_obj. read_fields.
  rewrite (js_or_absorb _ _ (VStr "Amenities retrieved successfully")) by done.
  do 3 f_equal. unfold js_or. by destruct (truthy (VStr now)).
Qed.

(** X9. The connection probe of the chat window reports "connected" for
    every backend and network: [checkHealth] cannot raise, the interceptor
    having resolved whatever failure there was. *)
Theorem checkConnection_always_connected w :
  checkConnection transport w = (Normal "connected", issue GetHealth w).
Proof.
  unfold checkConnection, try_catch, bind. by rewrite checkHealth_run.
Qed.

End Normalisation.

Section OtherCopies.

Context `{JsRuntime}.
Variable transport : nat -> request -> settled.

(** X10. [getErrorMessage] never yields an empty message: whatever the
    failure, what it returns is truthy. *)
Theorem getErrorMessage_truthy error :
  truthy (Deployed.getErrorMessage error) = true.
Proof.
  unfold Deployed.getErrorMessage.
  destruct (has_code error "ERR_NETWORK"); [done|].
  destruct (has_code error "ECONNABORTED"); [done|].
  destruct (truthy (response_message error)) eqn:Hr; [done|].
  by apply truthy_js_or.
Qed.

(** X11. In the deployed copy too a failure of the transport ends
    [chatQuery] after one request and no wait; the envelope has status
    "error", the message [getErrorMessage] picks (the fixed connection or
    timeout text when the failure carries that code, before any message of
    the server), and the interceptor's body as data. *)
Theorem deployed_chatQuery_transport_failure query w e :
  transport (length (sent w)) (Deployed.chat_request query) = Rejected e ->
  Deployed.chatQuery transport query w
  = (Normal {| status := VStr "error";
               message := Deployed.getErrorMessage e;
               data := VObj (<["status" := VStr "error"]>
                            (<["message" := Deployed.getErrorMessage e]>
                            (<["timestamp" := VStr now]> ∅)));
               timestamp := VStr now |},
     issue (Deployed.chat_request query) w).
Proof.
  intros Hrej. unfold Deployed.chatQuery.
  change (Z.to_nat maxRetries) with 3%nat. cbn [Deployed.chatQuery_loop].
  change (Z.ltb 0 maxRetries) with true. cbv iota.
  unfold try_catch, Deployed.chat_attempt, bind, Deployed.axios.
  rewrite Hrej. cbn [Deployed.response_interceptor resp_data]. unfold lift.
  rewrite standardizeResponse_defined by done.
  unfold standardized. rewrite !prop_obj. read_fields.
  rewrite (js_or_truthy (Deployed.getErrorMessage e))
    by apply getErrorMessage_truthy.
  do 3 f_equal. unfold js_or. by destruct (truthy (VStr now)).
Qed.


(** X13. On a body that can be read, the copy that does not reshape
    amenities reports the same status as [getPropertyAmenities], and
    whenever it exposes a truthy [data.amenities] the reshaping copy exposes
    that same value. *)
Theorem debug_getPropertyAmenities_agrees propertyId w env env' :
  nullish (delivered transport (length (sent w)) (GetAmenities propertyId))
  = false ->
  fst (Debug.getPropertyAmenities transport propertyId w) = Normal env ->
  fst (getPropertyAmenities transport propertyId w) = Normal env' ->
  status env' = status env
  /\ (truthy (prop (data env) "amenities") = true ->
      prop (data env') "amenities" = prop (data env) "amenities").
Proof.
  intros Hb Hdebug Hmain.
  unfold Debug.getPropertyAmenities in Hdebug.
  rewrite normalising_call_run in Hdebug. unfold settle in Hdebug.
  rewrite Hb in Hdebug. injection Hdebug as <-.
  rewrite getPropertyAmenities_defined in Hmain by done.
  injection Hmain as <-. cbn [status data standardized].
  split; [done|]. rewrite prop_obj. read_fields.
  set (body := delivered transport (length (sent w)) (GetAmenities propertyId)).
  unfold js_or at 1 3.
  destruct (truthy (prop body "data")) eqn:Hd; cbn [andb].
  - intros Ha. rewrite Ha. by apply js_or_truthy.
  - intros Ha. by apply js_or_truthy.
Qed.

End OtherCopies.

Section Deadlines.

Context `{JsRuntime}.

(** How the network settles the [n]-th request under a given deadline, in
    milliseconds. *)
Variable network : Z -> nat -> request -> settled.


End Deadlines.

Section Substrings.

Lemma prefix_append t post : String.prefix t (t +:+ post) = true.
Proof.
  induction t as [|a t IH]; simpl; [by destruct post|].
  by destruct (Ascii.ascii_dec a a).
Qed.

Lemma prefix_split t s :
  String.prefix t s = true -> exists post, s = t +:+ post.
Proof.
  revert t. induction s as [|b s IH]; intros [|a t]; simpl; try done.
  - by exists "".
  - intros _. by exists (String b s).
  - destruct (Ascii.ascii_dec a b) as [->|]; [|done].
    intros [post ->]%IH. by exists post.
Qed.

Lemma includes_unfold s search :
  includes s search
  = String.prefix search s
    || match s with
       | EmptyString => false
       | String _ rest => includes rest search
       end.
Proof. by destruct s. Qed.

(** [includes] is the occurrence of [search] somewhere in [s]. *)
Lemma includes_spec s search :
  includes s search = true
  <-> exists pre post, s = pre +:+ (search +:+ post).
Proof.
  split.
  - induction s as [|a s IH]; rewrite includes_unfold.
    + rewrite orb_false_r. intros [post Hs]%prefix_split. by exists "", post.
    + intros [[post Hs]%prefix_split | [pre [post ->]]%IH]%orb_prop.
      * by exists "", post.
      * by exists (String a pre), post.
  - intros (pre & post & ->). induction pre as [|a pre IH].
    + change ("" +:+ (search +:+ post)) with (search +:+ post).
      rewrite includes_unfold. by rewrite prefix_append.
    + change (String a pre +:+ (search +:+ post))
        with (String a (pre +:+ (search +:+ post))).
      rewrite includes_unfold. by rewrite IH, orb_true_r.
Qed.

Lemma includes_absent_letter c rest s :
  ~ In c (String.list_ascii_of_string s) -> includes s (String c rest) = false.
Proof.
  induction s as [|a s IH]; [done|]. intros Hnot.
  rewrite includes_unfold. simpl.
  destruct (Ascii.ascii_dec c a) as [->|]; [destruct Hnot; by left|].
  apply IH. intros Hin. apply Hnot. by right.
Qed.

Lemma list_ascii_of_append s t :
  String.list_ascii_of_string (s +:+ t)
  = (String.list_ascii_of_string s ++ String.list_ascii_of_string t)%list.
Proof. induction s as [|a s IH]; simpl; [done|by rewrite IH]. Qed.

Lemma digits_without_F d :
  ~ In (Ascii.Ascii false true true false false false true false) (String.list_ascii_of_string (NilEmpty.string_of_uint d)).
Proof.
  induction d; simpl; [tauto|..]; (intros [Heq|Hin]; [discriminate|auto]).
Qed.

Lemma render_status_without_F status :
  ~ In (Ascii.Ascii false true true false false false true false) (String.list_ascii_of_string (ApiService.render_status status)).
Proof.
  unfold ApiService.render_status, NilZero.string_of_int,
    NilZero.string_of_uint.
  destruct (Z.to_int status) as [d|d]; destruct d;
    simpl; intros Hin; repeat destruct Hin as [Hin|Hin]; try done;
    by eapply digits_without_F.
Qed.

Lemma http_error_message_kept status :
  includes ("HTTP error! status: " +:+ ApiService.render_status status)
    "Failed to fetch" = false.
Proof.
  apply includes_absent_letter. rewrite list_ascii_of_append.
  intros [Hin|Hin]%in_app_or.
  - simpl in Hin. repeat destruct Hin as [Hin|Hin]; done.
  - by eapply render_status_without_F.
Qed.

End Substrings.

Section Classifier.

Context `{JsRuntime}.

Lemma includes_occurs s search :
  includes s search = true <-> occurs_in search s.
Proof. apply includes_spec. Qed.

Lemma includes_absent s search :
  includes s search = false <-> ~ occurs_in search s.
Proof.
  rewrite <- includes_occurs. by destruct (includes s search).
Qed.

(** C8, as amended. [handleApiError] looks at the failure's message only:
    two failures with the same message get the same envelope whatever their
    status code and error code. It searches the message for substrings, with
    the case as written and in this order: "timeout" gives the timed-out
    text; failing that, "Failed to fetch" or "connect" the unable-to-connect
    text; failing that, "500" the server-error text; failing that, "404" the
    not-found text; and a message with none of them the unexpected-error
    text. *)
Theorem handleApiError_by_message :
  let reply := fun text =>
    {| status := VStr "error"; message := VStr text;
       data := VObj ∅; timestamp := VStr now |} in
  (forall e1 e2,
     err_message e1 = err_message e2 -> handleApiError e1 = handleApiError e2)
  /\ (forall e,
        includes (err_message e) "timeout" = true ->
        handleApiError e
        = reply "The request timed out. Please check your connection and try again.")
  /\ (forall e,
        occurs_in "timeout" (err_message e) ->
        handleApiError e
        = reply "The request timed out. Please check your connection and try again.")
  /\ (forall e,
        ~ occurs_in "timeout" (err_message e) ->
        occurs_in "Failed to fetch" (err_message e)
        \/ occurs_in "connect" (err_message e) ->
        handleApiError e
        = reply "Unable to connect to the server. Please check if the server is running.")
  /\ (forall e,
        ~ occurs_in "timeout" (err_message e) ->
        ~ occurs_in "Failed to fetch" (err_message e) ->
        ~ occurs_in "connect" (err_message e) ->
        occurs_in "500" (err_message e) ->
        handleApiError e
        = reply "Server error occurred. Please try again later.")
  /\ (forall e,
        ~ occurs_in "timeout" (err_message e) ->
        ~ occurs_in "Failed to fetch" (err_message e) ->
        ~ occurs_in "connect" (err_message e) ->
        ~ occurs_in "500" (err_message e) ->
        occurs_in "404" (err_message e) ->
        handleApiError e
        = reply "The requested resource was not found.")
  /\ (forall e,
        ~ occurs_in "timeout" (err_message e) ->
        ~ occurs_in "Failed to fetch" (err_message e) ->
        ~ occurs_in "connect" (err_message e) ->
        ~ occurs_in "500" (err_message e) ->
        ~ occurs_in "404" (err_message e) ->
        handleApiError e
        = reply "An unexpected error occurred. Please try again later.").
Proof.
  intros reply. repeat split.
  - intros e1 e2 Hm. unfold handleApiError. by rewrite Hm.
  - intros e Ht. unfold handleApiError. by rewrite Ht.
  - intros e Ht%includes_occurs. unfold handleApiError. by rewrite Ht.
  - intros e Ht%includes_absent Hc. unfold handleApiError. rewrite Ht.
    destruct Hc as [Hc%includes_occurs | Hc%includes_occurs]; rewrite Hc;
      by rewrite ?orb_true_r.
  - intros e Ht%includes_absent Hf%includes_absent Hc%includes_absent
      Hs%includes_occurs.
    unfold handleApiError. by rewrite Ht, Hf, Hc, Hs.
  - intros e Ht%includes_absent Hf%includes_absent Hc%includes_absent
      Hs%includes_absent Hn%includes_occurs.
    unfold handleApiError. by rewrite Ht, Hf, Hc, Hs, Hn.
  - intros e Ht%includes_absent Hf%includes_absent Hc%includes_absent
      Hs%includes_absent Hn%includes_absent.
    unfold handleApiError. by rewrite Ht, Hf, Hc, Hs, Hn.
Qed.

End Classifier.

Section FetchClient.

Context `{JsRuntime}.
Variable fetch : string -> value -> ApiService.fetch_outcome.
Variable baseURL : string.


(** X15. A response with a status outside 200 to 299 makes [makeRequest]
    raise an Error whose message is "HTTP error! status: " followed by the
    status in decimal; the body is not read, and the [catch] block passes
    this error on as it is, whatever the status. *)
Theorem makeRequest_http_error url options status body :
  fetch (baseURL +:+ url) options = ApiService.Responded status body ->
  ApiService.ok status = false ->
  ApiService.makeRequest fetch baseURL url options
  = ApiService.Raised
      (ApiService.new_Error
         ("HTTP error! status: " +:+ ApiService.render_status status)).
Proof.
  intros Hres Hok.
  unfold ApiService.makeRequest, ApiService.request_body. rewrite Hres, Hok.
  cbn [negb]. unfold ApiService.translate.
  cbn [ApiService.new_Error ApiService.error_name ApiService.error_message].
  change (String.eqb "Error" "AbortError") with false. cbv iota.
  by rewrite http_error_message_kept.
Qed.

Lemma http_error_classified status :
  (100 <= status <= 599)%Z ->
  message (handleApiError
             (Error ("HTTP error! status: "
                     +:+ ApiService.render_status status)))
  = VStr (if Z.eqb status 500
          then "Server error occurred. Please try again later."
          else if Z.eqb status 404
          then "The requested resource was not found."
          else "An unexpected error occurred. Please try again later.").
Proof.
  intros Hrange.
  assert (forallb
            (fun s =>
               match message (handleApiError
                                (Error ("HTTP error! status: "
                                        +:+ ApiService.render_status s))) with
               | VStr m =>
                   String.eqb m
                     (if Z.eqb s 500
                      then "Server error occurred. Please try again later."
                      else if Z.eqb s 404
                      then "The requested resource was not found."
                      else "An unexpected error occurred. Please try again later.")
               | _ => false
               end) (seqZ 100 500) = true) as Hall by (by vm_compute).
  rewrite forallb_forall in Hall.
  specialize (Hall status). cbv beta in Hall.
  destruct (message _); try (discriminate Hall; apply list_elem_of_In,
                               elem_of_seqZ; lia).
  f_equal. apply String.eqb_eq, Hall, list_elem_of_In, elem_of_seqZ. lia.
Qed.

(** X16. What [handleApiError] makes of the errors [makeRequest] raises:
    an aborted request is reported as timed out and a "Failed to fetch" as
    unable to connect; of the error statuses 100 to 599 only 500 is reported
    as a server error and only 404 as not found, every other one (a 503, a
    400) as an unexpected error. *)
Theorem handleApiError_of_makeRequest url options err :
  ApiService.makeRequest fetch baseURL url options = ApiService.Raised err ->
  (forall e,
     fetch (baseURL +:+ url) options = ApiService.Failed e ->
     ApiService.error_name e = "AbortError" ->
     message (handleApiError (ApiService.as_error err))
     = VStr "The request timed out. Please check your connection and try again.")
  /\ (forall e,
        fetch (baseURL +:+ url) options = ApiService.Failed e ->
        ApiService.error_name e <> "AbortError" ->
        includes (ApiService.error_message e) "Failed to fetch" = true ->
        message (handleApiError (ApiService.as_error err))
        = VStr "Unable to connect to the server. Please check if the server is running.")
  /\ (forall status body,
        fetch (baseURL +:+ url) options = ApiService.Responded status body ->
        ApiService.ok status = false ->
        (100 <= status <= 599)%Z ->
        message (handleApiError (ApiService.as_error err))
        = VStr (if Z.eqb status 500
                then "Server error occurred. Please try again later."
                else if Z.eqb status 404
                then "The requested resource was not found."
                else "An unexpected error occurred. Please try again later.")).
Proof.
  intros Hraised. repeat split.
  - intros e Hfetch Hname. revert Hraised.
    unfold ApiService.makeRequest, ApiService.request_body,
      ApiService.translate.
    rewrite Hfetch, Hname. by intros [= <-].
  - intros e Hfetch Hname Hmsg. revert Hraised.
    unfold ApiService.makeRequest, ApiService.request_body,
      ApiService.translate.
    rewrite Hfetch, Hmsg. apply String.eqb_neq in Hname. rewrite Hname.
    by intros [= <-].
  - intros status body Hfetch Hok Hrange.
    rewrite (makeRequest_http_error _ _ _ _ Hfetch Hok) in Hraised.
    injection Hraised as <-. by apply http_error_classified.
Qed.

(** X17. [handleApiError] reports a timeout for exactly the failures whose
    message has "timeout", in lower case, somewhere in it. *)
Theorem handleApiError_timeout_iff error :
  message (handleApiError error)
  = VStr "The request timed out. Please check your connection and try again."
  <-> exists pre post, err_message error = pre +:+ ("timeout" +:+ post).
Proof.
  rewrite <- includes_spec. unfold handleApiError.
  destruct (includes (err_message error) "timeout"); [done|].
  split; [|done].
  by repeat case_match.
Qed.

End FetchClient.

(** * Runs of the model on concrete inputs *)

#[local] Existing Instance sample_runtime.

(** The happy path: three matches come back and are passed on. *)
Example chatQuery_happy_path :
  exists env,
    chatQuery (answering found_matches) question idle
    = (Normal env, issue (chat_request question) idle)
    /\ status env = VStr "success"
    /\ prop (data env) "properties" = VArr [VNum 1; VNum 2; VNum 3].
Proof. eexists. split; [vm_compute; reflexivity|]. by vm_compute. Qed.

(** C9, on the body the interceptor makes of a failure. *)
Lemma standardizeResponse_without_data_witness :
  let body := VObj (<["status" := VStr "error"]>
                   (<["message" := VStr "Request failed with status code 500"]>
                   (<["timestamp" := VStr "2024-05-01T11:59:58.000Z"]> ∅))) in
  truthy (prop body "data") = false
  /\ standardizeResponse body
     = Normal {| status := VStr "error";
                 message := VStr "Request failed with status code 500";
                 data := body;
                 timestamp := VStr "2024-05-01T11:59:58.000Z" |}.
Proof.
  intros body. split; [reflexivity|].
  rewrite (standardizeResponse_without_data body); reflexivity.
Defined.

(** C7: an envelope with an empty message is canonical and does not come
    back equal. *)
Lemma empty_message_is_replaced :
  let e := {| status := VStr "success"; message := VStr "";
              data := VObj ∅; timestamp := VStr "2024-05-01T11:59:58.000Z" |} in
  canonical e = true
  /\ standardizeResponse (envelope_object e)
     = Normal {| status := VStr "success"; message := VStr "Success";
                 data := VObj ∅;
                 timestamp := VStr "2024-05-01T11:59:58.000Z" |}
  /\ standardizeResponse (envelope_object e) <> Normal e.
Proof.
  intros e.
  assert (standardizeResponse (envelope_object e)
          = Normal {| status := VStr "success"; message := VStr "Success";
                      data := VObj ∅;
                      timestamp := VStr "2024-05-01T11:59:58.000Z" |}) as Hrun
    by by vm_compute.
  split; [reflexivity|]. split; [exact Hrun|].
  rewrite Hrun. unfold e. congruence.
Qed.

Lemma standardizeResponse_idempotent_witness :
  let e := {| status := VStr "error"; message := VStr "No listing found";
              data := VObj ∅; timestamp := VStr "2024-05-01T11:59:58.000Z" |} in
  canonical e = true /\ message e <> VStr ""
  /\ standardizeResponse (envelope_object e) = Normal e.
Proof.
  intros e.
  assert (canonical e = true) as Hc by reflexivity.
  assert (message e <> VStr "") as Hm by discriminate.
  split; [exact Hc|]. split; [exact Hm|].
  exact (standardizeResponse_idempotent e Hc Hm).
Defined.

(** C1: a failed chat request comes back with status "error" and the whole
    interceptor body as data; and an error body that the backend sends with
    data of its own keeps that data. *)
Lemma error_envelope_with_data :
  (exists env w,
     chatQuery persistent_503 question idle = (Normal env, w)
     /\ status env = VStr "error"
     /\ prop (data env) "message" = VStr "Service Unavailable"
     /\ data env <> VObj ∅)
  /\ (exists env w,
        chatQuery (answering no_match) question idle = (Normal env, w)
        /\ status env = VStr "error"
        /\ prop (data env) "alternative_count" = VNum 2
        /\ data env <> VObj ∅).
Proof.
  split; do 2 eexists; (split; [vm_compute; reflexivity|]);
    (split; [reflexivity|]); (split; [by vm_compute|]); intros Heq.
  - apply (f_equal (fun v => prop v "message")) in Heq.
    vm_compute in Heq. discriminate.
  - apply (f_equal (fun v => prop v "alternative_count")) in Heq.
    vm_compute in Heq. discriminate.
Qed.

Lemma client_errors_carry_no_data_witness :
  no_error_body (answering found_matches)
  /\ exists env,
       negotiatePrice (answering found_matches) VNull (VNum 100) idle
       = (Normal env, idle)
       /\ status env = VStr "error"
       /\ data env = VObj ∅.
Proof.
  assert (no_error_body (answering found_matches)) as Hclean.
  { intros n req. vm_compute. discriminate. }
  split; [exact Hclean|].
  eexists. split; [reflexivity|]. split; [reflexivity|].
  apply (client_errors_carry_no_data (answering found_matches)
           question VNull (VNum 100) VUndefined idle _ idle Hclean).
  - right. right. left. reflexivity.
  - reflexivity.
Defined.

(** C2: a 503, of the transient kind ServerError, on every attempt is tried
    once, with no back-off at all. *)
Lemma persistent_503_is_tried_once :
  (forall n req, exists e,
     persistent_503 n req = Rejected e
     /\ classify e = ServerError /\ isTransient (classify e) = true)
  /\ let w := snd (chatQuery persistent_503 question idle) in
     sent w = [chat_request question]
     /\ Z.of_nat (length (sent w)) <> maxRetries
     /\ waited w = []
     /\ total_wait w <> 3000%Z.
Proof.
  split; [intros n req; eexists; by vm_compute|].
  vm_compute. repeat split; discriminate.
Qed.

Lemma chatQuery_retry_bound_witness :
  every_attempt_raises null_bodies question idle
  /\ exists e,
       chatQuery null_bodies question idle
       = (Normal (handleError e "Failed after multiple attempts"),
          mkWorld [chat_request question; chat_request question;
                   chat_request question] [2000; 4000]%Z).
Proof.
  assert (every_attempt_raises null_bodies question idle) as Hraise.
  { intros w' _. eexists. reflexivity. }
  split; [exact Hraise|].
  destruct (chatQuery_retry_bound null_bodies question idle Hraise)
    as (e & _ & Hrun & _).
  exists e. exact Hrun.
Defined.

(** C3: the failure raised on a [null] body has no status code, no error
    code and no response, so its kind is Unknown, which is not transient; yet
    it is tried three times, with both waits. *)
Lemma unclassified_failure_is_retried :
  exists e,
    fst (chat_attempt null_bodies question idle) = Throw e
    /\ classify e = Unknown
    /\ isTransient (classify e) = false
    /\ sent (snd (chatQuery null_bodies question idle))
       = [chat_request question; chat_request question; chat_request question]
    /\ length (sent (snd (chatQuery null_bodies question idle))) <> 1%nat
    /\ waited (snd (chatQuery null_bodies question idle)) = [2000; 4000]%Z
    /\ waited (snd (chatQuery null_bodies question idle)) <> [].
Proof. eexists. split; [reflexivity|]. by vm_compute. Qed.

Lemma chatQuery_transport_failure_witness :
  let e := mkError "Request failed with status code 404"
             (Some "ERR_BAD_REQUEST")
             (Some (mkResponse (Some 404) (VStr "<h1>Not Found</h1>"))) in
  persistent_404 (length (sent idle)) (chat_request question) = Rejected e
  /\ classify e = NotFound
  /\ exists env w',
       chatQuery persistent_404 question idle = (Normal env, w')
       /\ sent w' = [chat_request question]
       /\ waited w' = []
       /\ status env = VStr "error"
       /\ message env = VStr "Request failed with status code 404".
Proof.
  intros e. split; [reflexivity|]. split; [reflexivity|].
  exact (chatQuery_transport_failure persistent_404 question idle e
           eq_refl eq_refl).
Defined.

(** C4: what [checkHealth] returns for a failed probe has no data field,
    and for a healthy backend it is whatever the backend sent. *)
Lemma checkHealth_returns_raw_body :
  (exists v,
     fst (checkHealth persistent_503 idle) = Normal v
     /\ prop v "status" = VStr "error"
     /\ prop v "data" = VUndefined
     /\ canonical_object v = false)
  /\ fst (checkHealth (answering (VStr "OK")) idle) = Normal (VStr "OK")
  /\ canonical_object (VStr "OK") = false.
Proof.
  split; [|by vm_compute].
  eexists. split; [vm_compute; reflexivity|]. by vm_compute.
Qed.

Lemma operations_return_witness :
  returns_envelope (chatQuery null_bodies question) idle
  /\ returns_error (negotiatePrice persistent_503 (VNum 42) (VNum 250000)) idle.
Proof.
  split.
  - exact (proj1 (proj1 (operations_return null_bodies question
                           (VNum 42) (VNum 250000) VUndefined idle))).
  - pose proof (operations_return persistent_503 question
                  (VNum 42) (VNum 250000) VUndefined idle)
      as (_ & _ & (_ & _ & Hneg & _) & _).
    exact (Hneg _ eq_refl).
Defined.

(** C5: the identifier 0 is present and the offer 100 is positive, yet no
    request is issued; the offer [true] is no number, yet the request is. *)
Lemma negotiatePrice_refuses_present_id :
  (is_present (VNum 0) = true
   /\ positive_number (VNum 100) = true
   /\ sent (snd (negotiatePrice (answering found_matches)
                   (VNum 0) (VNum 100) idle)) = [])
  /\ (positive_number (VBool true) = false
      /\ sent (snd (negotiatePrice (answering found_matches)
                      (VNum 7) (VBool true) idle))
         = [negotiate_request (VNum 7) (VBool true)]).
Proof. by vm_compute. Qed.

Lemma negotiatePrice_validation_witness :
  negotiatePrice (answering found_matches) VNull (VNum 100) idle
  = (Normal {| status := VStr "error";
               message := VStr "Invalid property ID or offer amount";
               data := VObj ∅;
               timestamp := VStr now |}, idle)
  /\ sent (snd (negotiatePrice (answering found_matches)
                  (VNum 42) (VNum 250000) idle))
     = [negotiate_request (VNum 42) (VNum 250000)].
Proof.
  split.
  - apply (proj1 (negotiatePrice_validation (answering found_matches)
                    VNull (VNum 100) idle)).
    left. reflexivity.
  - rewrite (proj2 (negotiatePrice_validation (answering found_matches)
                      (VNum 42) (VNum 250000) idle) eq_refl eq_refl).
    reflexivity.
Defined.

(** C10, at the identifiers 0 and "". *)
Lemma falsy_propertyId_short_circuits_witness :
  truthy (VNum 0) = false
  /\ sent (snd (negotiatePrice (answering found_matches)
                  (VNum 0) (VNum 250000) idle)) = []
  /\ status (handleError (Error "Invalid property ID") "Failed to finalize deal")
     = VStr "error"
  /\ finalizeDeal (answering found_matches) (VStr "") VUndefined idle
     = (Normal (handleError (Error "Invalid property ID")
                  "Failed to finalize deal"), idle).
Proof.
  split; [reflexivity|]. split.
  - rewrite (proj1 (falsy_propertyId_short_circuits (answering found_matches)
                      (VNum 0) eq_refl)).
    reflexivity.
  - split; [reflexivity|].
    rewrite (proj2 (falsy_propertyId_short_circuits (answering found_matches)
                      (VStr "") eq_refl)).
    reflexivity.
Defined.

(** C6: on the body [null] the data has no key at all, and an [amenities]
    field that is no sequence is passed on as it is. *)
Lemma amenities_shape_not_for_every_body :
  (exists env,
     fst (getPropertyAmenities null_bodies (VNum 42) idle) = Normal env
     /\ status env = VStr "error"
     /\ data env = VObj ∅)
  /\ (exists env,
        fst (getPropertyAmenities
               (answering (VObj (<["amenities" := VNum 5]> ∅))) (VNum 42) idle)
        = Normal env
        /\ prop (data env) "amenities" = VNum 5).
Proof.
  split; eexists; (split; [vm_compute; reflexivity|]); by vm_compute.
Qed.

(** The flattened body of the design document's scenario. *)
Lemma getPropertyAmenities_shape_witness :
  nullish (delivered (answering flattened_amenities) (length (sent idle))
             (GetAmenities (VNum 42))) = false
  /\ exists env,
       getPropertyAmenities (answering flattened_amenities) (VNum 42) idle
       = (Normal env, issue (GetAmenities (VNum 42)) idle)
       /\ status env = VStr "success"
       /\ prop (data env) "amenities" = VArr [VStr "Gym"; VStr "Pool"]
       /\ prop (data env) "property_info" = VObj ∅
       /\ prop (data env) "amenity_score" = VObj ∅.
Proof.
  split; [reflexivity|].
  destruct (getPropertyAmenities_shape (answering flattened_amenities)
              (VNum 42) idle eq_refl) as (fields & Hrun & _ & Ha & Hp & Hs).
  eexists. split; [exact Hrun|]. cbn [status data]. rewrite !prop_obj.
  rewrite Ha, Hp, Hs. by vm_compute.
Defined.

(** C8: two expired deadlines that differ in their message only. *)
Lemma same_signals_different_messages :
  let e1 := mkError "timeout of 10000ms exceeded" (Some "ECONNABORTED") None in
  let e2 := mkError "Request aborted" (Some "ECONNABORTED") None in
  err_code e1 = err_code e2
  /\ err_response e1 = err_response e2
  /\ classify e1 = Timeout /\ classify e2 = Timeout
  /\ message (handleApiError e1)
     = VStr "The request timed out. Please check your connection and try again."
  /\ message (handleApiError e2)
     = VStr "An unexpected error occurred. Please try again later."
  /\ message (handleApiError e1) <> message (handleApiError e2).
Proof. by vm_compute. Qed.

Lemma handleApiError_by_message_witness :
  let e1 := mkError "timeout of 10000ms exceeded" (Some "ECONNABORTED") None in
  let e2 := mkError "timeout of 10000ms exceeded" None
              (Some (mkResponse (Some 404) VNull)) in
  let both := Error "HTTP error! status: 500 (first try: 404)" in
  let late := Error "could not connect: timeout after 404" in
  handleApiError e1 = handleApiError e2
  /\ message (handleApiError e2)
     = VStr "The request timed out. Please check your connection and try again."
  /\ message (handleApiError late)
     = VStr "The request timed out. Please check your connection and try again."
  /\ message (handleApiError both)
     = VStr "Server error occurred. Please try again later.".
Proof.
  intros e1 e2 both late.
  pose proof handleApiError_by_message
    as (Hsame & Htimeout & Hoccurs & _ & Hserver & _).
  split; [exact (Hsame e1 e2 eq_refl)|].
  split; [by rewrite (Htimeout e2 eq_refl)|].
  split.
  - rewrite (Hoccurs late); [reflexivity|].
    exists "could not connect: ", " after 404". reflexivity.
  - rewrite (Hserver both); [reflexivity|..].
    + by apply includes_absent.
    + by apply includes_absent.
    + by apply includes_absent.
    + exists "HTTP error! status: ", " (first try: 404)". reflexivity.
Defined.

(** X1, on the envelope a persistent 503 ends in. *)
Lemma envelopes_well_formed_witness :
  exists env,
    fst (chatQuery persistent_503 question idle) = Normal env
    /\ truthy (status env) = true
    /\ truthy (message env) = true
    /\ nullish (data env) = false.
Proof.
  eexists. split; [by vm_compute|].
  apply (envelopes_well_formed persistent_503 question VNull VNull VNull idle).
  left. by vm_compute.
Defined.

(** X3: two unreadable bodies, then the matches: a success after three
    requests and both waits. *)
Lemma chatQuery_first_readable_body_witness :
  let transport := fun (n : nat) (_ : request) =>
    Fulfilled (mkResponse (Some 200)
                 (if Nat.ltb n 2 then VNull else found_matches)) in
  exists env,
    chatQuery transport question idle
    = (Normal env,
       mkWorld [chat_request question; chat_request question;
                chat_request question] [2000; 4000]%Z)
    /\ status env = VStr "success"
    /\ message env = VStr "Found 3 matches".
Proof.
  intros transport. eexists. split.
  - apply (chatQuery_first_readable_body transport question idle 2).
    + lia.
    + intros j Hj. destruct j as [|[|j]]; [reflexivity|reflexivity|lia].
    + reflexivity.
  - split; by vm_compute.
Defined.

(** X5, on the body of the happy path, and on the empty body. *)
Lemma standardizeResponse_twice_witness :
  standardizeResponse (envelope_object (standardized found_matches))
  = Normal (standardized found_matches)
  /\ standardizeResponse (envelope_object (standardized (VStr "")))
     <> Normal (standardized (VStr "")).
Proof.
  split.
  - apply (proj2 (standardizeResponse_twice found_matches eq_refl)).
    by vm_compute.
  - intros Heq.
    apply (proj1 (standardizeResponse_twice (VStr "") eq_refl)) in Heq.
    vm_compute in Heq. discriminate.
Defined.

(** X6, on an HTML page sent instead of a record. *)
Lemma standardizeResponse_non_object_witness :
  standardizeResponse (VStr "<h1>Bad Gateway</h1>")
  = Normal {| status := VStr "success";
              message := VStr "Success";
              data := VStr "<h1>Bad Gateway</h1>";
              timestamp := VStr now |}.
Proof.
  apply (standardizeResponse_non_object (VStr "<h1>Bad Gateway</h1>"));
    [reflexivity|discriminate].
Defined.

(** X7, on an offer the backend accepts. *)
Lemma canonical_envelope_passes_through_witness :
  let e := {| status := VStr "success"; message := VStr "Offer accepted";
              data := VObj (<["negotiation_status" := VStr "accepted"]> ∅);
              timestamp := VStr "2024-05-01T11:59:58.000Z" |} in
  negotiatePrice (answering (envelope_object e)) (VNum 42) (VNum 250000) idle
  = (Normal e, issue (negotiate_request (VNum 42) (VNum 250000)) idle).
Proof.
  intros e.
  assert (message e <> VStr "") as Hm by discriminate.
  pose proof (canonical_envelope_passes_through
                (answering (envelope_object e)) e (Some 200%Z) question
                (VNum 42) (VNum 250000) VUndefined idle eq_refl Hm)
    as (_ & Hneg & _).
  exact (Hneg eq_refl eq_refl).
Defined.

(** X8, on a 404. *)
Lemma getPropertyAmenities_transport_failure_witness :
  exists env,
    getPropertyAmenities persistent_404 (VNum 42) idle
    = (Normal env, issue (GetAmenities (VNum 42)) idle)
    /\ status env = VStr "error"
    /\ message env = VStr "Request failed with status code 404"
    /\ prop (data env) "amenities" = VArr [].
Proof.
  eexists. split.
  - exact (getPropertyAmenities_transport_failure persistent_404
             (VNum 42) idle _ eq_refl).
  - repeat split; by vm_compute.
Defined.

(** X11: a connection failure is reported with the fixed text, not with
    the message the failure carries. *)
Lemma deployed_chatQuery_transport_failure_witness :
  let e := mkError "Network Error" (Some "ERR_NETWORK") None in
  exists env,
    Deployed.chatQuery (fun _ _ => Rejected e) question idle
    = (Normal env, issue (Deployed.chat_request question) idle)
    /\ status env = VStr "error"
    /\ message env
       = VStr "Unable to connect to the server. Please check your internet connection.".
Proof.
  intros e. eexists. split.
  - exact (deployed_chatQuery_transport_failure (fun _ _ => Rejected e)
             question idle e eq_refl).
  - split; reflexivity.
Defined.


(** X13, on amenities nested under [data]. *)
Lemma debug_getPropertyAmenities_agrees_witness :
  let body := VObj (<["status" := VStr "success"]>
                   (<["data" := VObj (<["amenities" := VArr [VStr "Gym"]]> ∅)]>
                      ∅)) in
  exists env env',
    fst (Debug.getPropertyAmenities (answering body) (VNum 42) idle)
    = Normal env
    /\ fst (getPropertyAmenities (answering body) (VNum 42) idle) = Normal env'
    /\ prop (data env) "amenities" = VArr [VStr "Gym"]
    /\ prop (data env') "amenities" = prop (data env) "amenities".
Proof.
  intros body. do 2 eexists.
  split; [by vm_compute|]. split; [by vm_compute|]. split; [by vm_compute|].
  apply (proj2 (debug_getPropertyAmenities_agrees (answering body)
                  (VNum 42) idle _ _ eq_refl
                  ltac:(by vm_compute) ltac:(by vm_compute))).
  by vm_compute.
Defined.

(** X15 and X16, on a 503. *)
Lemma makeRequest_http_error_witness :
  ApiService.makeRequest
    (fun _ _ => ApiService.Responded 503 (ApiService.Parsed VNull))
    "https://real-estate-agent1-2.onrender.com" "/api/health" VUndefined
  = ApiService.Raised (ApiService.new_Error "HTTP error! status: 503").
Proof.
  exact (makeRequest_http_error
           (fun _ _ => ApiService.Responded 503 (ApiService.Parsed VNull))
           "https://real-estate-agent1-2.onrender.com" "/api/health"
           VUndefined 503 (ApiService.Parsed VNull) eq_refl eq_refl).
Defined.

Lemma handleApiError_of_makeRequest_witness :
  let fetch := fun (_ : string) (_ : value) =>
    ApiService.Responded 503 (ApiService.Parsed VNull) in
  let aborted := fun (_ : string) (_ : value) =>
    ApiService.Failed
      (ApiService.mkRaised "AbortError" "The user aborted a request.") in
  message (handleApiError
             (ApiService.as_error
                (ApiService.new_Error "HTTP error! status: 503")))
  = VStr "An unexpected error occurred. Please try again later."
  /\ message (handleApiError
                (ApiService.as_error
                   (ApiService.new_Error "Request timeout - please try again")))
     = VStr "The request timed out. Please check your connection and try again.".
Proof.
  intros fetch aborted. split.
  - exact (proj2 (proj2 (handleApiError_of_makeRequest fetch
                           "https://real-estate-agent1-2.onrender.com"
                           "/api/health" VUndefined _ eq_refl))
             503%Z (ApiService.Parsed VNull) eq_refl eq_refl
             ltac:(lia)).
  - exact (proj1 (handleApiError_of_makeRequest aborted
                    "https://real-estate-agent1-2.onrender.com"
                    "/api/health" VUndefined _ eq_refl)
             _ eq_refl eq_refl).
Defined.


Lemma handleApiError_timeout_iff_witness :
  message (handleApiError (Error "timeout of 15000ms exceeded"))
  = VStr "The request timed out. Please check your connection and try again.".
Proof.
  apply (proj2 (handleApiError_timeout_iff _)).
  exists "", " of 15000ms exceeded". reflexivity.
Defined.
